(** * pulseguard-app: attendance and leave rules

    A shallow embedding of the rule layer of the application:

    - the SQL migration: the enum types, the tables [attendance],
      [leave_requests] and [profiles], the row-level policies of all
      four tables, the triggers [calculate_total_hours],
      [calculate_leave_days] and [update_updated_at_column], and the
      signup trigger [handle_new_user];
    - the client handlers of [Attendance.tsx], [Dashboard.tsx] and
      [LeaveRequests.tsx] that write to those tables, what the pages
      render from their state, and the aggregations computed from
      fetched rows;
    - the navigation of the layout.

    Tables are finite maps keyed by the column(s) their uniqueness
    constraint names.  A statement of the client passes two stages, as in
    PostgreSQL: the policies of its table are added to it, which fails
    when they refer back to a table whose policies are being added; then
    it runs, under the row tests, triggers and constraints.  A statement
    that the store refuses at either stage is [None]; the handlers catch
    it and report a toast, leaving the store as it was. *)

From stdpp Require Import gmap strings list fin_maps.
From Stdlib Require Import ZArith QArith Qabs Lia.

Local Open Scope Z_scope.

(** ** Column types *)

(** [UUID]: a 128-bit identifier. *)
Definition uuid := N.

(** [DATE]: a day number (days since 1970-01-01).  Subtracting two dates
    gives the integer number of days between them, as in PostgreSQL. *)
Definition date := Z.

(** [TIMESTAMP WITH TIME ZONE]: microseconds since the epoch, the
    resolution PostgreSQL stores. *)
Definition timestamptz := Z.

(** [DECIMAL(4,2)]: a signed number with two decimal places and at most
    four digits, carried as its count of hundredths (8.42 is [842]). *)
Definition decimal_4_2 := Z.

Inductive user_role := admin | hr | employee.
Inductive leave_type := casual | sick | earned.
Inductive leave_status := pending | approved | rejected.
Inductive attendance_status := present | late | absent.

#[global] Instance user_role_eq_dec : EqDecision user_role.
Proof. solve_decision. Defined.
#[global] Instance leave_type_eq_dec : EqDecision leave_type.
Proof. solve_decision. Defined.
#[global] Instance leave_status_eq_dec : EqDecision leave_status.
Proof. solve_decision. Defined.
#[global] Instance attendance_status_eq_dec : EqDecision attendance_status.
Proof. solve_decision. Defined.

(** ** Tables *)

Module ProfileRow.
Record row := mk {
  id : uuid;
  user_id : uuid;
  name : string;
  email : string;
  role : user_role;
  department : option string;
  }.
End ProfileRow.

Module AttendanceRow.
Record row := mk {
  id : uuid;
  user_id : uuid;
  date : date;
  check_in : option timestamptz;
  check_out : option timestamptz;
  status : option attendance_status;
  total_hours : option decimal_4_2;
  created_at : timestamptz;
  updated_at : timestamptz;
  }.

Definition with_check_in (v : option timestamptz) (r : row) : row :=
  mk (id r) (user_id r) (date r) v (check_out r) (status r)
     (total_hours r) (created_at r) (updated_at r).
Definition with_check_out (v : option timestamptz) (r : row) : row :=
  mk (id r) (user_id r) (date r) (check_in r) v (status r)
     (total_hours r) (created_at r) (updated_at r).
Definition with_status (v : option attendance_status) (r : row) : row :=
  mk (id r) (user_id r) (date r) (check_in r) (check_out r) v
     (total_hours r) (created_at r) (updated_at r).
Definition with_total_hours (v : option decimal_4_2) (r : row) : row :=
  mk (id r) (user_id r) (date r) (check_in r) (check_out r) (status r)
     v (created_at r) (updated_at r).
Definition with_updated_at (v : timestamptz) (r : row) : row :=
  mk (id r) (user_id r) (date r) (check_in r) (check_out r) (status r)
     (total_hours r) (created_at r) v.
End AttendanceRow.

Module LeaveRow.
Record row := mk {
  id : uuid;
  user_id : uuid;
  leave_type : leave_type;
  start_date : date;
  end_date : date;
  reason : string;
  status : option leave_status;
  approved_by : option uuid;
  remarks : option string;
  total_days : option Z;
  created_at : timestamptz;
  updated_at : timestamptz;
  }.

Definition with_total_days (v : option Z) (r : row) : row :=
  mk (id r) (user_id r) (leave_type r) (start_date r) (end_date r)
     (reason r) (status r) (approved_by r) (remarks r) v
     (created_at r) (updated_at r).
Definition with_updated_at (v : timestamptz) (r : row) : row :=
  mk (id r) (user_id r) (leave_type r) (start_date r) (end_date r)
     (reason r) (status r) (approved_by r) (remarks r) (total_days r)
     (created_at r) v.
(** The column list of the update issued by [handleApproveReject]. *)
Definition with_decision (st : option leave_status) (by_ : option uuid)
    (rem : option string) (r : row) : row :=
  mk (id r) (user_id r) (leave_type r) (start_date r) (end_date r)
     (reason r) st by_ rem (total_days r)
     (created_at r) (updated_at r).
End LeaveRow.

(** The store: [profiles] is keyed by [user_id] ([UNIQUE(user_id)]),
    [attendance] by [(user_id, date)] ([UNIQUE(user_id, date)]), and
    [leave_requests] by its primary key. *)
Record database := mkdb {
  profiles : gmap uuid ProfileRow.row;
  attendance : gmap (uuid * Z) AttendanceRow.row;
  leave_requests : gmap uuid LeaveRow.row;
}.

(** What the server contributes to a statement: [NOW()] and the value
    [gen_random_uuid()] returns for an inserted row. *)
Record server := mksrv {
  NOW : timestamptz;
  gen_random_uuid : uuid;
}.

(** ** Triggers *)

(** Rounding of a [numeric] quotient [n / d] to an integer, ties away
    from zero. *)
Definition round_div (n d : Z) : Z :=
  Z.sgn n * ((2 * Z.abs n + d) / (2 * d)).

(** Storing into a [DECIMAL(4,2)] column fails ("numeric field
    overflow") unless the rounded value is below 100 in magnitude. *)
Definition to_decimal_4_2 (hundredths : Z) : option decimal_4_2 :=
  if decide (Z.abs hundredths < 10000) then Some hundredths else None.

(** Microseconds in a hundredth of an hour: the interval in seconds is
    [us / 10^6], hours are seconds [/ 3600], so hundredths of an hour are
    [us / 36000000]. *)
Definition us_per_hundredth_hour : Z := 36000000.

(** [calculate_total_hours]: [EXTRACT(EPOCH FROM (check_out - check_in))
    / 3600] assigned to the [DECIMAL(4,2)] field [NEW.total_hours]. *)
Definition calculate_total_hours (NEW : AttendanceRow.row)
    : option AttendanceRow.row :=
  match AttendanceRow.check_in NEW, AttendanceRow.check_out NEW with
  | Some ci, Some co =>
      h ← to_decimal_4_2 (round_div (co - ci) us_per_hundredth_hour);
      Some (AttendanceRow.with_total_hours (Some h) NEW)
  | _, _ => Some NEW
  end.

(** [calculate_leave_days]. *)
Definition calculate_leave_days (NEW : LeaveRow.row) : LeaveRow.row :=
  LeaveRow.with_total_days
    (Some ((LeaveRow.end_date NEW - LeaveRow.start_date NEW) + 1)) NEW.

(** [update_updated_at_column], on each of the two tables. *)
Definition attendance_update_updated_at (srv : server)
    (NEW : AttendanceRow.row) : AttendanceRow.row :=
  AttendanceRow.with_updated_at (NOW srv) NEW.

Definition leave_update_updated_at (srv : server)
    (NEW : LeaveRow.row) : LeaveRow.row :=
  LeaveRow.with_updated_at (NOW srv) NEW.

(** The value of a [DECIMAL(4,2)] as a rational number of hours. *)
Definition hours_Q (h : decimal_4_2) : Q := h # 100.

(** [(check_out - check_in)] in seconds divided by 3600, exactly. *)
Definition exact_hours (ci co : timestamptz) : Q := (co - ci) # 3600000000.

(** ** Statements on the store

    What each statement of the client does to the tables when it runs:
    the rows its row tests let it reach, the triggers fired before a row
    is written, and the constraints.  Whether it runs at all is decided
    before, when its policies are added (the next section); the handlers
    issue every statement through [as_client]. *)

Definition set_attendance (t : gmap (uuid * Z) AttendanceRow.row)
    (db : database) : database :=
  mkdb (profiles db) t (leave_requests db).

Definition set_leave_requests (t : gmap uuid LeaveRow.row)
    (db : database) : database :=
  mkdb (profiles db) (attendance db) t.

(** The role test of the policies "HR can view ...", as a statement
    that runs would find it: [EXISTS (SELECT 1 FROM profiles p WHERE
    p.user_id = auth.uid() AND p.role IN ('hr', 'admin'))]. *)
Definition is_hr_or_admin (db : database) (uid : uuid) : bool :=
  match profiles db !! uid with
  | Some p =>
      match ProfileRow.role p with
      | hr | admin => true
      | employee => false
      end
  | None => false
  end.

(** [upsert({user_id, date, check_in, status}, {onConflict:
    'user_id,date'})] on [attendance], issued by [uid].  The insert
    policy demands [auth.uid() = user_id].  Without a conflicting row the
    proposed row is inserted with the column defaults; with one, the
    listed columns of the existing row are overwritten and its other
    columns kept.  The triggers run before the row is written. *)
Definition attendance_upsert (srv : server) (uid : uuid)
    (u : uuid) (d : date) (ci : timestamptz) (st : attendance_status)
    (db : database) : option database :=
  if decide (uid = u) then
    let proposed :=
      AttendanceRow.mk (gen_random_uuid srv) u d (Some ci) None (Some st)
                       None (NOW srv) (NOW srv) in
    excluded ← calculate_total_hours proposed;
    match attendance db !! (u, d) with
    | None =>
        Some (set_attendance (<[(u, d) := excluded]> (attendance db)) db)
    | Some old =>
        let updated :=
          AttendanceRow.with_status (AttendanceRow.status excluded)
            (AttendanceRow.with_check_in (AttendanceRow.check_in excluded)
               old) in
        r ← calculate_total_hours updated;
        Some (set_attendance
                (<[(u, d) := attendance_update_updated_at srv r]>
                   (attendance db)) db)
    end
  else None.

(** All rows carry a value, or the statement fails as a whole. *)
Definition commit_rows (t : gmap (uuid * Z) (option AttendanceRow.row))
    : option (gmap (uuid * Z) AttendanceRow.row) :=
  if decide (map_Forall (λ _ o, is_Some o) t) then Some (omap id t) else None.

(** [update({check_out}).eq('id', id0)] on [attendance], issued by
    [uid]: the update policy shows only the rows with
    [auth.uid() = user_id]. *)
Definition attendance_update_check_out (srv : server) (uid : uuid)
    (id0 : uuid) (co : timestamptz) (db : database) : option database :=
  t ← commit_rows
        ((λ r : AttendanceRow.row,
            if decide (AttendanceRow.id r = id0
                       ∧ AttendanceRow.user_id r = uid)
            then attendance_update_updated_at srv <$>
                   calculate_total_hours
                     (AttendanceRow.with_check_out (Some co) r)
            else Some r) <$> attendance db);
  Some (set_attendance t db).

(** [insert({user_id, leave_type, start_date, end_date, reason,
    status})] on [leave_requests], issued by [uid].  The row passes the
    policies when it is the issuer's own or the issuer is HR or admin;
    the primary key must be unused. *)
Definition leave_requests_insert (srv : server) (uid : uuid)
    (u : uuid) (lt : leave_type) (sd ed : date) (why : string)
    (st : leave_status) (db : database) : option database :=
  if bool_decide (uid = u) || is_hr_or_admin db uid then
    match leave_requests db !! gen_random_uuid srv with
    | Some _ => None
    | None =>
        let proposed :=
          LeaveRow.mk (gen_random_uuid srv) u lt sd ed why (Some st)
                      None None None (NOW srv) (NOW srv) in
        Some (set_leave_requests
                (<[gen_random_uuid srv := calculate_leave_days proposed]>
                   (leave_requests db)) db)
    end
  else None.

(** [update({status, approved_by, remarks}).eq('id', id0)] on
    [leave_requests], issued by [uid], when it runs.  Only the HR/admin
    policy covers updates; for anyone else no row is visible and nothing
    changes.  Running, it raises no error: where the statement is
    refused is [as_client]. *)
Definition leave_requests_update (srv : server) (uid : uuid)
    (id0 : uuid) (st : leave_status) (by_ : uuid) (rem : option string)
    (db : database) : database :=
  if is_hr_or_admin db uid then
    set_leave_requests
      (alter (λ r, leave_update_updated_at srv
                     (calculate_leave_days
                        (LeaveRow.with_decision (Some st) (Some by_) rem r)))
             id0 (leave_requests db)) db
  else db.

(** ** Row-level security

    All four tables have row-level security enabled, and the client's
    role is subject to it.  Before a statement runs, the policies of its
    table that apply to its command are added to it; a policy whose
    expression selects from a table brings in the [SELECT] policies of
    that table in turn.  When a table is met again while its own
    policies are being added, the statement is refused with "infinite
    recursion detected in policy for relation" (SQLSTATE 42P17),
    whatever the rows and whoever the user.  [handle_new_user] is
    [SECURITY DEFINER] and is not subject to the policies. *)

Inductive relation :=
  rel_profiles | rel_attendance | rel_leave_requests | rel_company_policies.

(** The command a policy is created [FOR]. *)
Inductive policy_command := FOR_SELECT | FOR_INSERT | FOR_UPDATE | FOR_ALL.

#[global] Instance relation_eq_dec : EqDecision relation.
Proof. solve_decision. Defined.
#[global] Instance policy_command_eq_dec : EqDecision policy_command.
Proof. solve_decision. Defined.

(** A policy: its name, its table, its command, and the tables that its
    [USING] or [WITH CHECK] expression selects from. *)
Record policy := mkpolicy {
  policy_name : string;
  policy_on : relation;
  policy_for : policy_command;
  policy_selects_from : list relation;
}.

(** The [CREATE POLICY] statements of the migration, in its order. *)
Definition policies : list policy :=
  [ mkpolicy "Users can view their own profile"
      rel_profiles FOR_SELECT [];
    mkpolicy "Users can update their own profile"
      rel_profiles FOR_UPDATE [];
    mkpolicy "HR can view employee profiles"
      rel_profiles FOR_SELECT [rel_profiles];
    mkpolicy "Admin can manage all profiles"
      rel_profiles FOR_ALL [rel_profiles];
    mkpolicy "Users can view their own attendance"
      rel_attendance FOR_SELECT [];
    mkpolicy "Users can insert their own attendance"
      rel_attendance FOR_INSERT [];
    mkpolicy "Users can update their own attendance"
      rel_attendance FOR_UPDATE [];
    mkpolicy "HR can view all attendance"
      rel_attendance FOR_SELECT [rel_profiles];
    mkpolicy "Users can view their own leave requests"
      rel_leave_requests FOR_SELECT [];
    mkpolicy "Users can create their own leave requests"
      rel_leave_requests FOR_INSERT [];
    mkpolicy "HR can view and manage leave requests"
      rel_leave_requests FOR_ALL [rel_profiles];
    mkpolicy "Everyone can view company policies"
      rel_company_policies FOR_SELECT [];
    mkpolicy "Only admin can manage company policies"
      rel_company_policies FOR_ALL [rel_profiles] ].

(** The statements the client library issues: [select], [insert]
    (nothing returned), [upsert] with [onConflict], and [update]
    narrowed by [eq]. *)
Inductive statement :=
  | stmt_select (r : relation)
  | stmt_insert (r : relation)
  | stmt_upsert (r : relation)
  | stmt_update (r : relation).

#[global] Instance statement_eq_dec : EqDecision statement.
Proof. solve_decision. Defined.

Definition relation_of (s : statement) : relation :=
  match s with
  | stmt_select r | stmt_insert r | stmt_upsert r | stmt_update r => r
  end.

(** The commands whose policies a statement needs.  An update narrowed
    by a condition reads the rows it looks for, and an upsert reads the
    row in conflict and updates it, so both need the [SELECT] policies
    besides their own. *)
Definition commands_of (s : statement) : list policy_command :=
  match s with
  | stmt_select _ => [FOR_SELECT]
  | stmt_insert _ => [FOR_INSERT]
  | stmt_upsert _ => [FOR_INSERT; FOR_UPDATE; FOR_SELECT]
  | stmt_update _ => [FOR_UPDATE; FOR_SELECT]
  end.

(** A policy applies to a command on its table when it is [FOR] that
    command or [FOR ALL]. *)
Definition policy_applies (r : relation) (cmds : list policy_command)
    (p : policy) : bool :=
  bool_decide (policy_on p = r)
  && (bool_decide (policy_for p = FOR_ALL)
      || bool_decide (policy_for p ∈ cmds)).

Inductive rewriting :=
  | rewritten
  | infinite_recursion (r : relation)
  | unfinished.

(** Adding the policies of [r]: refused when [r] is among the tables
    whose policies are being added ([active]); otherwise every table a
    policy of [r] selects from gets its [SELECT] policies added, with
    [r] active.  [fuel] bounds the depth, which cannot exceed the number
    of tables. *)
Fixpoint add_policies (fuel : nat) (active : list relation)
    (cmds : list policy_command) (r : relation) : rewriting :=
  match fuel with
  | O => unfinished
  | S fuel =>
      if bool_decide (r ∈ active) then infinite_recursion r
      else
        foldr (λ sub rest,
                 match add_policies fuel (r :: active) [FOR_SELECT] sub with
                 | rewritten => rest
                 | refused => refused
                 end)
              rewritten
              (flat_map policy_selects_from
                 (List.filter (policy_applies r cmds) policies))
  end.

Definition rewrite_statement (s : statement) : rewriting :=
  add_policies 5 [] (commands_of s) (relation_of s).

(** A statement as the client issues it: refused unless its policies
    can be added, and otherwise what it does when it runs. *)
Definition as_client {A} (s : statement) (run : option A) : option A :=
  match rewrite_statement s with
  | rewritten => run
  | _ => None
  end.

(** ** The client *)

(** What the browser contributes to a handler call: [new Date()] and the
    offset of local time from UTC, both in microseconds. *)
Record browser := mkbrowser {
  client_now : timestamptz;
  tz_offset : Z;
}.

(** [format(now, 'yyyy-MM-dd')]: the local calendar day of [now]. *)
Definition format_date (b : browser) : date :=
  (client_now b + tz_offset b) / 86400000000.

(** A call of [toast({title, variant})]; [destructive] is the variant. *)
Record toast := Toast {
  title : string;
  destructive : bool;
}.

(** What a handler leaves behind: the store, and the toast it showed
    ([None] when it returned without one). *)
Definition outcome : Type := database * option toast.

(** Truthiness of a [string | null] column value read from a row: the
    store never hands out an empty timestamp text. *)
Definition truthy {A} (v : option A) : bool :=
  match v with Some _ => true | None => false end.

(** Truthiness of a form field (a string). *)
Definition nonempty (s : string) : bool := negb (String.eqb s "").

(** *** Attendance.tsx and Dashboard.tsx: check-in and check-out

    [todayAttendance] is the page's state: the row for today as it was
    when the page last fetched, or [None]. *)

Definition Attendance_handleCheckIn (b : browser) (srv : server)
    (profile : option ProfileRow.row)
    (todayAttendance : option AttendanceRow.row)
    (db : database) : outcome :=
  match profile with
  | None => (db, None)
  | Some profile =>
      let now := client_now b in
      let today := format_date b in
      if truthy (todayAttendance ≫= AttendanceRow.check_in) then
        (db, Some (Toast "Already Checked In" true))
      else
        match as_client (stmt_upsert rel_attendance)
                (attendance_upsert srv (ProfileRow.user_id profile)
                   (ProfileRow.user_id profile) today now present db) with
        | Some db' => (db', Some (Toast "Checked In Successfully" false))
        | None => (db, Some (Toast "Check-In Failed" true))
        end
  end.

Definition Dashboard_handleCheckIn (b : browser) (srv : server)
    (profile : option ProfileRow.row)
    (db : database) : outcome :=
  match profile with
  | None => (db, None)
  | Some profile =>
      let now := client_now b in
      let today := format_date b in
      match as_client (stmt_upsert rel_attendance)
              (attendance_upsert srv (ProfileRow.user_id profile)
                 (ProfileRow.user_id profile) today now present db) with
      | Some db' => (db', Some (Toast "Checked In" false))
      | None => (db, Some (Toast "Error" true))
      end
  end.

Definition Attendance_handleCheckOut (b : browser) (srv : server)
    (profile : option ProfileRow.row)
    (todayAttendance : option AttendanceRow.row)
    (db : database) : outcome :=
  match profile, todayAttendance with
  | Some profile, Some todayAttendance =>
      let now := client_now b in
      if truthy (AttendanceRow.check_out todayAttendance) then
        (db, Some (Toast "Already Checked Out" true))
      else
        match as_client (stmt_update rel_attendance)
                (attendance_update_check_out srv (ProfileRow.user_id profile)
                   (AttendanceRow.id todayAttendance) now db) with
        | Some db' => (db', Some (Toast "Checked Out Successfully" false))
        | None => (db, Some (Toast "Check-Out Failed" true))
        end
  | _, _ => (db, None)
  end.

Definition Dashboard_handleCheckOut (b : browser) (srv : server)
    (profile : option ProfileRow.row)
    (todayAttendance : option AttendanceRow.row)
    (db : database) : outcome :=
  match profile, todayAttendance with
  | Some profile, Some todayAttendance =>
      let now := client_now b in
      match as_client (stmt_update rel_attendance)
              (attendance_update_check_out srv (ProfileRow.user_id profile)
                 (AttendanceRow.id todayAttendance) now db) with
      | Some db' => (db', Some (Toast "Checked Out" false))
      | None => (db, Some (Toast "Error" true))
      end
  | _, _ => (db, None)
  end.

(** What the pages render from [todayAttendance].  Attendance.tsx
    disables its two buttons, for every role; Dashboard.tsx shows one
    quick action, and only inside [profile?.role === 'employee' && ...]. *)
Definition Attendance_checkIn_disabled
    (todayAttendance : option AttendanceRow.row) : bool :=
  truthy (todayAttendance ≫= AttendanceRow.check_in).

Definition Attendance_checkOut_disabled
    (todayAttendance : option AttendanceRow.row) : bool :=
  negb (truthy (todayAttendance ≫= AttendanceRow.check_in))
  || truthy (todayAttendance ≫= AttendanceRow.check_out).

Inductive quick_action := CheckInButton | CheckOutButton | Completed.

Definition Dashboard_quick_action (profile : option ProfileRow.row)
    (todayAttendance : option AttendanceRow.row) : option quick_action :=
  if bool_decide (ProfileRow.role <$> profile = Some employee) then
    Some (if negb (truthy (todayAttendance ≫= AttendanceRow.check_in))
          then CheckInButton
          else if negb (truthy (todayAttendance ≫= AttendanceRow.check_out))
          then CheckOutButton
          else Completed)
  else None.

(** *** LeaveRequests.tsx *)

(** The form state.  A date input holds either nothing or a calendar
    day, so the two date strings are optional days ([None] is ['']). *)
Record NewLeaveRequest := mkform {
  leaveType : string;
  startDate : option date;
  endDate : option date;
  reason : string;
}.

(** The text of a [leave_type] value; any other text is refused by the
    column. *)
Definition parse_leave_type (s : string) : option leave_type :=
  if String.eqb s "casual" then Some casual
  else if String.eqb s "sick" then Some sick
  else if String.eqb s "earned" then Some earned
  else None.

Definition handleSubmitLeaveRequest (srv : server)
    (profile : option ProfileRow.row) (newLeaveRequest : NewLeaveRequest)
    (db : database) : outcome :=
  match profile with
  | None => (db, None)
  | Some profile =>
      if negb (nonempty (leaveType newLeaveRequest))
         || negb (truthy (startDate newLeaveRequest))
         || negb (truthy (endDate newLeaveRequest))
         || negb (nonempty (reason newLeaveRequest))
      then (db, Some (Toast "Validation Error" true))
      else
        match
          as_client (stmt_insert rel_leave_requests)
            (lt ← parse_leave_type (leaveType newLeaveRequest);
             sd ← startDate newLeaveRequest;
             ed ← endDate newLeaveRequest;
             leave_requests_insert srv (ProfileRow.user_id profile)
               (ProfileRow.user_id profile) lt sd ed (reason newLeaveRequest)
               pending db)
        with
        | Some db' => (db', Some (Toast "Leave Request Submitted" false))
        | None => (db, Some (Toast "Submission Failed" true))
        end
  end.

(** The form's own constraints: the start-date input has [min] = today,
    the end-date input has [min] = the start date, or today while the
    start date is empty.  An input is in range when it is empty or not
    below its [min]. *)
Definition endDate_min (today : date) (f : NewLeaveRequest) : date :=
  match startDate f with Some sd => sd | None => today end.

Definition in_range (min : date) (v : option date) : bool :=
  match v with Some d => bool_decide (min ≤ d) | None => true end.

Definition form_in_range (today : date) (f : NewLeaveRequest) : bool :=
  in_range today (startDate f) && in_range (endDate_min today f) (endDate f).

(** [<form onSubmit={handleSubmitLeaveRequest}>] with its "Submit
    Request" button: the browser raises the submit event, and so calls
    the handler, only when every input is in range; otherwise it points
    at the input and nothing of the page runs. *)
Definition LeaveRequestForm_submit (today : date) (srv : server)
    (profile : option ProfileRow.row) (newLeaveRequest : NewLeaveRequest)
    (db : database) : outcome :=
  if form_in_range today newLeaveRequest
  then handleSubmitLeaveRequest srv profile newLeaveRequest db
  else (db, None).

(** The second argument of [handleApproveReject]:
    ['approved' | 'rejected']. *)
Inductive decision := approve | reject.

Definition decision_status (d : decision) : leave_status :=
  match d with approve => approved | reject => rejected end.

(** [status.charAt(0).toUpperCase() + status.slice(1)]. *)
Definition decision_title (d : decision) : string :=
  match d with
  | approve => "Leave Request Approved"
  | reject => "Leave Request Rejected"
  end.

(** [remarks || null]. *)
Definition remarks_or_null (remarks : option string) : option string :=
  match remarks with
  | Some s => if nonempty s then Some s else None
  | None => None
  end.

Definition handleApproveReject (srv : server)
    (profile : option ProfileRow.row) (requestId : uuid)
    (status : decision) (remarks : option string)
    (db : database) : outcome :=
  match profile with
  | None => (db, None)
  | Some profile =>
      match as_client (stmt_update rel_leave_requests)
              (Some (leave_requests_update srv (ProfileRow.user_id profile)
                       requestId (decision_status status)
                       (ProfileRow.user_id profile)
                       (remarks_or_null remarks) db)) with
      | Some db' => (db', Some (Toast (decision_title status) false))
      | None => (db, Some (Toast "Action Failed" true))
      end
  end.

(** The Approve and Reject buttons of a table row are rendered when
    [profile?.role !== 'employee' && request.status === 'pending']. *)
Definition shows_actions (profile : option ProfileRow.row)
    (request : LeaveRow.row) : bool :=
  match profile with
  | Some p => negb (bool_decide (ProfileRow.role p = employee))
  | None => true
  end
  && bool_decide (LeaveRow.status request = Some pending).

(** *** Aggregation *)

Record MonthlyStats := mkstats {
  totalDays : nat;
  presentDays : nat;
  lateDays : nat;
  absentDays : nat;
  totalHours : Z;
}.

(** [r.status === s]. *)
Definition status_is (s : attendance_status) (r : AttendanceRow.row) : bool :=
  bool_decide (AttendanceRow.status r = Some s).

(** [r.total_hours || 0], in hundredths: [null] and [0] both give [0]. *)
Definition or_zero (v : option decimal_4_2) : Z :=
  match v with
  | Some h => if h =? 0 then 0 else h
  | None => 0
  end.

(** [records.reduce((sum, r) => sum + (r.total_hours || 0), 0)]. *)
Definition sum_total_hours (records : list AttendanceRow.row) : Z :=
  fold_left (λ sum r, sum + or_zero (AttendanceRow.total_hours r)) records 0.

(** The statistics of [fetchAttendanceData] over the fetched month. *)
Definition monthlyStats (records : list AttendanceRow.row) : MonthlyStats :=
  {| totalDays := length records;
     presentDays := length (List.filter (status_is present) records);
     lateDays := length (List.filter (status_is late) records);
     absentDays := length (List.filter (status_is absent) records);
     totalHours := sum_total_hours records |}.

(** [.not('total_hours', 'is', null)] of [fetchEmployeeStats]. *)
Definition total_hours_not_null (rows : list AttendanceRow.row)
    : list AttendanceRow.row :=
  List.filter (λ r, truthy (AttendanceRow.total_hours r)) rows.

(** [fetchEmployeeStats]: the same reduction over the rows the query
    returns; [Math.round(totalHours * 100) / 100] keeps a count of
    hundredths as it is. *)
Definition totalHoursThisMonth (rows : list AttendanceRow.row) : Z :=
  sum_total_hours (total_hours_not_null rows).

(** The validation test of [handleSubmitLeaveRequest], by name: some
    required field of the form is empty. *)
Definition missing_field (f : NewLeaveRequest) : bool :=
  negb (nonempty (leaveType f))
  || negb (truthy (startDate f))
  || negb (truthy (endDate f))
  || negb (nonempty (reason f)).

(** The sum of [total_hours] over only the records where it is not
    null, as the description of the aggregation puts it. *)
Definition sum_non_null (records : list AttendanceRow.row) : Z :=
  foldr Z.add 0 (omap AttendanceRow.total_hours records).

(** The invariant [calculate_leave_days] maintains on a stored row. *)
Definition leave_days_consistent (r : LeaveRow.row) : Prop :=
  LeaveRow.total_days r
  = Some ((LeaveRow.end_date r - LeaveRow.start_date r) + 1).

(** ** Scenarios

    Concrete days and instants: 2025-01-10 is day 20098, 2025-02-01 is
    day 20120; instants are UTC and the browser's offset is zero. *)
Module Scenario.

Definition day_2025_01_10 : date := 20098.
Definition day_2025_02_01 : date := 20120.
Definition day_2025_02_03 : date := 20122.

Definition at_09_05 : timestamptz := 1736499900000000.
Definition at_09_07 : timestamptz := 1736500020000000.
Definition at_17_30 : timestamptz := 1736530200000000.
Definition at_18_30 : timestamptz := 1736533800000000.

Definition alice : ProfileRow.row :=
  ProfileRow.mk 101%N 1%N "Alice" "alice@example.com" employee None.
Definition helen : ProfileRow.row :=
  ProfileRow.mk 102%N 2%N "Helen" "helen@example.com" hr None.
Definition ravi : ProfileRow.row :=
  ProfileRow.mk 103%N 3%N "Ravi" "ravi@example.com" admin None.

Definition staff : gmap uuid ProfileRow.row :=
  {[ 1%N := alice; 2%N := helen; 3%N := ravi ]}.

Definition db_empty : database := mkdb staff ∅ ∅.

Definition browser_at (t : timestamptz) : browser := mkbrowser t 0.
Definition server_at (t : timestamptz) (fresh : uuid) : server := mksrv t fresh.

(** Alice's row for 2025-01-10 after checking in at 09:05. *)
Definition row_checked_in : AttendanceRow.row :=
  AttendanceRow.mk 7%N 1%N day_2025_01_10 (Some at_09_05) None
                   (Some present) None at_09_05 at_09_05.

Definition db_checked_in : database :=
  mkdb staff {[ (1%N, day_2025_01_10) := row_checked_in ]} ∅.

(** The same row after checking out at 17:30. *)
Definition row_checked_out : AttendanceRow.row :=
  AttendanceRow.mk 7%N 1%N day_2025_01_10 (Some at_09_05) (Some at_17_30)
                   (Some present) (Some 842) at_09_05 at_17_30.

Definition db_checked_out : database :=
  mkdb staff {[ (1%N, day_2025_01_10) := row_checked_out ]} ∅.

(** The row as [calculate_total_hours] receives it on that check-out. *)
Definition row_checking_out : AttendanceRow.row :=
  AttendanceRow.with_check_out (Some at_17_30) row_checked_in.

(** A form whose end date lies before its start date. *)
Definition form_backwards : NewLeaveRequest :=
  mkform "casual" (Some day_2025_02_03) (Some day_2025_02_01) "family event".

Definition form_three_days : NewLeaveRequest :=
  mkform "casual" (Some day_2025_02_01) (Some day_2025_02_03) "family event".

Definition form_no_reason : NewLeaveRequest :=
  mkform "casual" (Some day_2025_02_01) (Some day_2025_02_03) "".

(** Alice's three-day request, as stored while pending and after Helen
    approved it. *)
Definition request_pending : LeaveRow.row :=
  LeaveRow.mk 50%N 1%N casual day_2025_02_01 day_2025_02_03 "family event"
              (Some pending) None None (Some 3) at_09_05 at_09_05.

Definition request_approved : LeaveRow.row :=
  LeaveRow.mk 50%N 1%N casual day_2025_02_01 day_2025_02_03 "family event"
              (Some approved) (Some 2%N) None (Some 3) at_09_05 at_17_30.

Definition db_pending : database :=
  mkdb staff ∅ {[ 50%N := request_pending ]}.
Definition db_approved : database :=
  mkdb staff ∅ {[ 50%N := request_approved ]}.

(** Three fetched rows: a full day, a day without check-out, and a full
    day marked late. *)
Definition row_open : AttendanceRow.row :=
  AttendanceRow.mk 8%N 1%N 20099 (Some at_09_05) None (Some present) None
                   at_09_05 at_09_05.
Definition row_late : AttendanceRow.row :=
  AttendanceRow.mk 9%N 1%N 20100 (Some at_09_05) (Some at_17_30) (Some late)
                   (Some 750) at_09_05 at_17_30.
Definition month_records : list AttendanceRow.row :=
  [row_late; row_open; row_checked_out].

End Scenario.

(** ** Further code of the pages and of the migration *)

(** The value [calculate_total_hours] gives a row that has both
    timestamps: every stored row carries it, whichever statement wrote
    the row last. *)
Definition hours_consistent (r : AttendanceRow.row) : Prop :=
  ∀ ci co, AttendanceRow.check_in r = Some ci →
           AttendanceRow.check_out r = Some co →
           AttendanceRow.total_hours r
           = Some (round_div (co - ci) us_per_hundredth_hour).

(** The map key of a stored attendance row is its [(user_id, date)]. *)
Definition attendance_keyed (db : database) : Prop :=
  ∀ (k : uuid * Z) r,
    attendance db !! k = Some r →
    k = (AttendanceRow.user_id r, (AttendanceRow.date r : Z)).

(** What the check-out update does to one row: the row with the given
    id, when it is the issuer's own, gets the new [check_out] and passes
    the two triggers; any other row stays. *)
Definition check_out_row (srv : server) (uid id0 : uuid) (co : timestamptz)
    (r : AttendanceRow.row) : option AttendanceRow.row :=
  if decide (AttendanceRow.id r = id0 ∧ AttendanceRow.user_id r = uid)
  then attendance_update_updated_at srv <$>
         calculate_total_hours (AttendanceRow.with_check_out (Some co) r)
  else Some r.

(** *** Dashboard.tsx: what the page fetches *)

(** [.single()]: the row when the query gives exactly one. *)
Definition single {A} (rows : list A) : option A :=
  match rows with
  | [r] => Some r
  | _ => None
  end.

(** The first query of [fetchDashboardData], when it runs: the rows of
    the user for today, which are the user's own and so pass the
    policy "Users can view their own attendance". *)
Definition select_today (uid : uuid) (today : date) (db : database)
    : list AttendanceRow.row :=
  List.filter (λ r, bool_decide (AttendanceRow.user_id r = uid)
                    && bool_decide (AttendanceRow.date r = today))
    (map_to_list (attendance db)).*2.

(** [const { data: todayData } = await ... .single()], handed to
    [setTodayAttendance]: the error is not looked at, and [data] is
    null when the select is refused or gives no single row. *)
Definition Dashboard_fetch_today (b : browser)
    (profile : ProfileRow.row) (db : database) : option AttendanceRow.row :=
  mjoin (as_client (stmt_select rel_attendance)
           (Some (single (select_today (ProfileRow.user_id profile)
                            (format_date b) db)))).

(** The rows a signed-in user may read when a select runs: the own ones,
    and every row for HR and admin. *)
Definition visible_to (db : database) (uid owner : uuid) : bool :=
  bool_decide (uid = owner) || is_hr_or_admin db uid.

(** [fetchHRAdminStats]: three count-only selects, each [count || 0];
    [count] is null when the select is refused. *)
Record HRAdminStats := mkhrstats {
  totalEmployees : nat;
  presentToday : nat;
  pendingLeaves : nat;
}.

Definition count_or_zero (count : option nat) : nat := default 0%nat count.

Definition fetchHRAdminStats (today : date) (uid : uuid) (db : database)
    : HRAdminStats :=
  {| totalEmployees :=
       count_or_zero
         (as_client (stmt_select rel_profiles)
            (Some (size (filter (λ kp : uuid * ProfileRow.row,
                             visible_to db uid (ProfileRow.user_id kp.2) = true
                             ∧ ProfileRow.role kp.2 ≠ admin)
                           (profiles db)))));
     presentToday :=
       count_or_zero
         (as_client (stmt_select rel_attendance)
            (Some (size (filter (λ kr : (uuid * Z) * AttendanceRow.row,
                             visible_to db uid (AttendanceRow.user_id kr.2)
                             = true
                             ∧ AttendanceRow.date kr.2 = today
                             ∧ AttendanceRow.check_in kr.2 ≠ None)
                           (attendance db)))));
     pendingLeaves :=
       count_or_zero
         (as_client (stmt_select rel_leave_requests)
            (Some (size (filter (λ kl : uuid * LeaveRow.row,
                             visible_to db uid (LeaveRow.user_id kl.2) = true
                             ∧ LeaveRow.status kl.2 = Some pending)
                           (leave_requests db))))) |}.

(** [userStats] and [hrStats] of LeaveRequests.tsx. *)
Module LeaveStats.
Record t := mk {
  total : nat;
  pending : nat;
  approved : nat;
  rejected : nat;
}.
End LeaveStats.

Definition leave_status_is (s : leave_status) (req : LeaveRow.row) : bool :=
  bool_decide (LeaveRow.status req = Some s).

Definition userStats (leaveRequests : list LeaveRow.row) : LeaveStats.t :=
  LeaveStats.mk (length leaveRequests)
    (length (List.filter (leave_status_is pending) leaveRequests))
    (length (List.filter (leave_status_is approved) leaveRequests))
    (length (List.filter (leave_status_is rejected) leaveRequests)).

Definition hrStats (profile : option ProfileRow.row)
    (allLeaveRequests : list LeaveRow.row) : option LeaveStats.t :=
  if negb (bool_decide (ProfileRow.role <$> profile = Some employee))
  then Some (userStats allLeaveRequests)
  else None.

(** *** The migration: [handle_new_user] *)

(** The columns of [auth.users] the trigger reads;
    [raw_user_meta_data ->> key] is the text under [key], if any. *)
Record auth_user := mkuser {
  auth_id : uuid;
  auth_email : option string;
  raw_user_meta_data : gmap string string;
}.

(** The cast [text::user_role]: a text that is no label of the type
    raises an error. *)
Definition parse_user_role (s : string) : option user_role :=
  if String.eqb s "admin" then Some admin
  else if String.eqb s "hr" then Some hr
  else if String.eqb s "employee" then Some employee
  else None.

(** [handle_new_user], fired after a row is inserted into
    [auth.users].  The insert into [profiles] fails when the role text
    is no role, when the e-mail is null or already used, when the user
    already has a profile, or when the new primary key is taken. *)
Definition handle_new_user (srv : server) (NEW : auth_user)
    (db : database) : option database :=
  role ← match raw_user_meta_data NEW !! "role" with
         | Some s => parse_user_role s
         | None => Some employee
         end;
  mail ← auth_email NEW;
  let name := default "New User" (raw_user_meta_data NEW !! "name") in
  if decide (is_Some (profiles db !! auth_id NEW)
             ∨ map_Exists (λ _ p, ProfileRow.email p = mail
                                  ∨ ProfileRow.id p = gen_random_uuid srv)
                 (profiles db))
  then None
  else Some (mkdb (<[auth_id NEW :=
                       ProfileRow.mk (gen_random_uuid srv) (auth_id NEW)
                         name mail role None]> (profiles db))
               (attendance db) (leave_requests db)).

(** *** The layout: navigation *)

Record NavItem := mknav {
  label : string;
  href : string;
  roles : list user_role;
}.

Definition navigationItems : list NavItem :=
  [ mknav "Dashboard" "/dashboard" [employee; hr; admin];
    mknav "Attendance" "/attendance" [employee; hr; admin];
    mknav "Leave Requests" "/leaves" [employee; hr; admin];
    mknav "Reports" "/reports" [hr; admin];
    mknav "Employees" "/employees" [hr; admin];
    mknav "Admin Panel" "/admin" [admin] ].

(** [item.roles.includes(profile.role)]; without a profile nothing is
    shown. *)
Definition filteredNavigation (profile : option ProfileRow.row)
    : list NavItem :=
  List.filter
    (λ item, match profile with
             | Some p => bool_decide (ProfileRow.role p ∈ roles item)
             | None => false
             end)
    navigationItems.

(** [location.pathname === href || location.pathname.startsWith(href +
    '/')]. *)
Definition isActiveRoute (pathname href : string) : bool :=
  String.eqb pathname href || String.prefix (href +:+ "/") pathname.

(** ** Further cases *)
Module Cases.

(** Alice's January: the open day of the 11th and the full day of the
    10th; Helen has a row of her own on the 10th. *)
Definition row_helen : AttendanceRow.row :=
  AttendanceRow.mk 20%N 2%N Scenario.day_2025_01_10 (Some Scenario.at_09_07)
                   None (Some present) None Scenario.at_09_07
                   Scenario.at_09_07.

Definition db_january : database :=
  mkdb Scenario.staff
    {[ (1%N, Scenario.day_2025_01_10) := Scenario.row_checked_out;
       (1%N, 20099) := Scenario.row_open;
       (2%N, Scenario.day_2025_01_10) := row_helen ]}
    {[ 50%N := Scenario.request_pending ]}.

Definition new_admin : auth_user :=
  mkuser 9%N (Some "mallory@example.com")
    {[ "name" := "Mallory"; "role" := "admin" ]}.

Definition new_plain : auth_user :=
  mkuser 9%N (Some "bob@example.com") ∅.

Definition new_bad_role : auth_user :=
  mkuser 9%N (Some "bob@example.com") {[ "role" := "manager" ]}.

End Cases.

(** * Properties *)

(** ** Rounding *)

Lemma round_div_near (n d : Z) :
  0 < d → 2 * Z.abs (d * round_div n d - n) ≤ d.
Proof.
  intros Hd. unfold round_div.
  pose proof (Z.div_mod (2 * Z.abs n + d) (2 * d) ltac:(lia)) as Hq.
  pose proof (Z.mod_pos_bound (2 * Z.abs n + d) (2 * d) ltac:(lia)) as Hr.
  set (q := (2 * Z.abs n + d) / (2 * d)) in *.
  destruct (Z.sgn_spec n) as [[Hn Hs]|[[Hn Hs]|[Hn Hs]]]; rewrite Hs; lia.
Qed.

Lemma round_div_abs (n d : Z) :
  0 < d → Z.abs (round_div n d) = (2 * Z.abs n + d) / (2 * d).
Proof.
  intros Hd. unfold round_div.
  assert (0 ≤ (2 * Z.abs n + d) / (2 * d)) by (apply Z.div_pos; lia).
  destruct (Z.sgn_spec n) as [[Hn Hs]|[[Hn Hs]|[Hn Hs]]]; rewrite Hs; try lia.
  subst n. simpl. rewrite Z.div_small; lia.
Qed.

Lemma round_div_exact (k d : Z) : 0 < d → round_div (k * d) d = k.
Proof.
  intros Hd. unfold round_div.
  assert (Hq : (2 * Z.abs (k * d) + d) / (2 * d) = Z.abs k).
  { symmetry. apply (Z.div_unique _ _ _ d); [lia|]. rewrite Z.abs_mul. lia. }
  rewrite Hq. rewrite Z.sgn_mul, (Z.sgn_pos d) by lia. rewrite Z.mul_1_r.
  destruct (Z.sgn_spec k) as [[Hn Hs]|[[Hn Hs]|[Hn Hs]]]; rewrite Hs; lia.
Qed.

(** A value too large for the column comes from an interval of at least
    99.995 hours. *)
Lemma round_div_large (n d : Z) :
  0 < d → 10000 ≤ Z.abs (round_div n d) → 19999 * d ≤ 2 * Z.abs n.
Proof.
  intros Hd. rewrite round_div_abs by done. intros Hbig.
  pose proof (Z.div_mod (2 * Z.abs n + d) (2 * d) ltac:(lia)) as Hq.
  pose proof (Z.mod_pos_bound (2 * Z.abs n + d) (2 * d) ltac:(lia)) as Hr.
  nia.
Qed.

(** Conversely, an interval of 99.995 hours or more gives a value too
    large for the column: the tie at 99.995 goes up to 100.00. *)
Lemma round_div_too_large (n d : Z) :
  0 < d → 19999 * d ≤ 2 * Z.abs n → 10000 ≤ Z.abs (round_div n d).
Proof.
  intros Hd Hbig. rewrite round_div_abs by done.
  apply Z.div_le_lower_bound; lia.
Qed.

(** A rounded value exactly half a unit from the quotient is the one
    farther from zero. *)
Lemma round_div_tie (n d : Z) :
  0 < d → 2 * Z.abs (d * round_div n d - n) = d →
  Z.abs n < d * Z.abs (round_div n d).
Proof.
  intros Hd. rewrite round_div_abs by done. unfold round_div.
  pose proof (Z.div_mod (2 * Z.abs n + d) (2 * d) ltac:(lia)) as Hq.
  pose proof (Z.mod_pos_bound (2 * Z.abs n + d) (2 * d) ltac:(lia)) as Hr.
  set (q := (2 * Z.abs n + d) / (2 * d)) in *.
  destruct (Z.sgn_spec n) as [[Hn Hs]|[[Hn Hs]|[Hn Hs]]]; rewrite Hs; lia.
Qed.

Lemma hours_Q_near (h n : Z) :
  2 * Z.abs (us_per_hundredth_hour * h - n) ≤ us_per_hundredth_hour →
  (Qabs (hours_Q h - (n # 3600000000)) <= 1 # 200)%Q.
Proof.
  unfold us_per_hundredth_hour, hours_Q. intros Hnear.
  unfold Qle, Qabs, Qminus, Qplus, Qopp. cbn [Qnum Qden].
  change (Z.pos (100 * 3600000000)) with 360000000000.
  change (Z.pos 3600000000) with 3600000000.
  change (Z.pos 100) with 100. change (Z.pos 200) with 200.
  lia.
Qed.

Lemma hours_Q_tie (h n : Z) :
  (Qabs (hours_Q h - (n # 3600000000)) == 1 # 200)%Q →
  2 * Z.abs (us_per_hundredth_hour * h - n) = us_per_hundredth_hour.
Proof.
  unfold us_per_hundredth_hour, hours_Q.
  unfold Qeq, Qabs, Qminus, Qplus, Qopp. cbn [Qnum Qden].
  change (Z.pos (100 * 3600000000)) with 360000000000.
  change (Z.pos 3600000000) with 3600000000.
  change (Z.pos 100) with 100. change (Z.pos 200) with 200.
  lia.
Qed.

Lemma hours_Q_farther (h n : Z) :
  Z.abs n < us_per_hundredth_hour * Z.abs h →
  (Qabs (n # 3600000000) < Qabs (hours_Q h))%Q.
Proof.
  unfold us_per_hundredth_hour, hours_Q, Qlt, Qabs. cbn [Qnum Qden].
  change (Z.pos 3600000000) with 3600000000. change (Z.pos 100) with 100.
  lia.
Qed.

Lemma hours_Q_exact (k : Z) :
  (hours_Q k == (k * us_per_hundredth_hour # 3600000000))%Q.
Proof.
  unfold us_per_hundredth_hour, hours_Q, Qeq. cbn [Qnum Qden].
  change (Z.pos 3600000000) with 3600000000. change (Z.pos 100) with 100.
  lia.
Qed.

Lemma hours_Q_bound (h : Z) : Z.abs h < 10000 → (Qabs (hours_Q h) < 100)%Q.
Proof.
  unfold hours_Q, Qlt, Qabs. cbn [Qnum Qden].
  change (Z.pos 100) with 100. lia.
Qed.

Lemma exact_hours_large (ci co : timestamptz) :
  19999 * us_per_hundredth_hour ≤ 2 * Z.abs (co - ci)
  ↔ ((19999 # 200) <= Qabs (exact_hours ci co))%Q.
Proof.
  unfold us_per_hundredth_hour, exact_hours, Qle, Qabs. cbn [Qnum Qden].
  change (Z.pos 3600000000) with 3600000000. change (Z.pos 200) with 200.
  lia.
Qed.

(** ** The triggers *)

Lemma calculate_total_hours_both (NEW : AttendanceRow.row)
    (ci co : timestamptz) :
  AttendanceRow.check_in NEW = Some ci →
  AttendanceRow.check_out NEW = Some co →
  calculate_total_hours NEW
  = (λ h, AttendanceRow.with_total_hours (Some h) NEW) <$>
      to_decimal_4_2 (round_div (co - ci) us_per_hundredth_hour).
Proof.
  intros Hci Hco. unfold calculate_total_hours. rewrite Hci, Hco.
  by destruct (to_decimal_4_2 _).
Qed.

Lemma calculate_total_hours_missing (NEW : AttendanceRow.row) :
  AttendanceRow.check_in NEW = None ∨ AttendanceRow.check_out NEW = None →
  calculate_total_hours NEW = Some NEW.
Proof.
  unfold calculate_total_hours. intros [H|H]; rewrite H; [done|].
  by destruct (AttendanceRow.check_in NEW).
Qed.

Lemma calculate_leave_days_consistent (NEW : LeaveRow.row) :
  leave_days_consistent (calculate_leave_days NEW).
Proof. reflexivity. Qed.

(** ** Row-level security *)

Lemma add_policies_S (fuel : nat) (active : list relation)
    (cmds : list policy_command) (r : relation) :
  add_policies (S fuel) active cmds r
  = if bool_decide (r ∈ active) then infinite_recursion r
    else
      foldr (λ sub rest,
               match add_policies fuel (r :: active) [FOR_SELECT] sub with
               | rewritten => rest
               | refused => refused
               end)
            rewritten
            (flat_map policy_selects_from
               (List.filter (policy_applies r cmds) policies)).
Proof. reflexivity. Qed.

(** The verdict does not depend on the bound once it is reached. *)
Lemma add_policies_more_fuel (fuel : nat) :
  ∀ (active : list relation) (cmds : list policy_command) (r : relation),
    add_policies fuel active cmds r ≠ unfinished →
    add_policies (S fuel) active cmds r = add_policies fuel active cmds r.
Proof.
  induction fuel as [|fuel IH]; intros active cmds r; [done|].
  rewrite (add_policies_S (S fuel)), (add_policies_S fuel).
  destruct (bool_decide (r ∈ active)); [done|].
  induction (flat_map policy_selects_from
               (List.filter (policy_applies r cmds) policies))
    as [|sub subs IHs]; [done|].
  cbn [foldr].
  destruct (add_policies fuel (r :: active) [FOR_SELECT] sub) eqn:Hsub.
  - rewrite IH by (by rewrite Hsub). rewrite Hsub. apply IHs.
  - rewrite IH by (by rewrite Hsub). by rewrite Hsub.
  - done.
Qed.

(** Of the statements on the four tables, only a plain insert into
    [attendance] can have its policies added; every other one comes
    back to [profiles] while the policies of [profiles] are being
    added. *)
Lemma rewrite_statement_cases (s : statement) :
  rewrite_statement s
  = if decide (s = stmt_insert rel_attendance) then rewritten
    else infinite_recursion rel_profiles.
Proof. by destruct s as [[]|[]|[]|[]]. Qed.

Lemma rewrite_statement_fuel (s : statement) (n : nat) :
  add_policies (5 + n) [] (commands_of s) (relation_of s)
  = rewrite_statement s.
Proof.
  induction n as [|n IH]; [by rewrite Nat.add_0_r|].
  rewrite Nat.add_succ_r, add_policies_more_fuel; [done|].
  rewrite IH, rewrite_statement_cases. by case_decide.
Qed.

Lemma as_client_Some {A} (s : statement) (run : option A) (x : A) :
  as_client s run = Some x → run = Some x.
Proof. unfold as_client. by destruct (rewrite_statement s). Qed.


Lemma as_client_refused {A} (s : statement) (run : option A) :
  s ≠ stmt_insert rel_attendance → as_client s run = None.
Proof.
  intros Hs. unfold as_client. rewrite rewrite_statement_cases.
  by rewrite decide_False.
Qed.

(** ** Statements and the rows they write *)

Lemma attendance_upsert_fresh (srv : server) (u : uuid) (d : date)
    (ci : timestamptz) (st : attendance_status) (db : database) :
  attendance db !! (u, d) = None →
  attendance_upsert srv u u d ci st db
  = Some (set_attendance
            (<[(u, d) := AttendanceRow.mk (gen_random_uuid srv) u d (Some ci)
                           None (Some st) None (NOW srv) (NOW srv)]>
               (attendance db)) db).
Proof.
  intros Hnone. unfold attendance_upsert.
  rewrite decide_True by done. cbn. by rewrite Hnone.
Qed.

Lemma leave_requests_insert_row (srv : server) (uid u : uuid)
    (lt : leave_type) (sd ed : date) (why : string) (st : leave_status)
    (db db' : database) :
  leave_requests_insert srv uid u lt sd ed why st db = Some db' →
  leave_requests db' !! gen_random_uuid srv
  = Some (LeaveRow.mk (gen_random_uuid srv) u lt sd ed why (Some st) None None
            (Some ((ed - sd) + 1)) (NOW srv) (NOW srv)).
Proof.
  unfold leave_requests_insert. intros Hins.
  destruct (bool_decide (uid = u) || is_hr_or_admin db uid); [|done].
  destruct (leave_requests db !! gen_random_uuid srv); [done|].
  injection Hins as <-. cbn. by rewrite lookup_insert_eq.
Qed.

Lemma leave_requests_update_row (srv : server) (uid id0 by_ : uuid)
    (st : leave_status) (rem : option string) (db : database)
    (r : LeaveRow.row) :
  is_hr_or_admin db uid = true →
  leave_requests db !! id0 = Some r →
  leave_requests (leave_requests_update srv uid id0 st by_ rem db) !! id0
  = Some (LeaveRow.mk (LeaveRow.id r) (LeaveRow.user_id r)
            (LeaveRow.leave_type r) (LeaveRow.start_date r)
            (LeaveRow.end_date r) (LeaveRow.reason r) (Some st) (Some by_) rem
            (Some ((LeaveRow.end_date r - LeaveRow.start_date r) + 1))
            (LeaveRow.created_at r) (NOW srv)).
Proof.
  intros Hrole Hrow. unfold leave_requests_update. rewrite Hrole. cbn.
  by rewrite lookup_alter_eq, Hrow.
Qed.

Lemma leave_requests_update_other (srv : server) (uid id0 by_ : uuid)
    (st : leave_status) (rem : option string) (db : database) (id1 : uuid) :
  id1 ≠ id0 →
  leave_requests (leave_requests_update srv uid id0 st by_ rem db) !! id1
  = leave_requests db !! id1.
Proof.
  intros Hne. unfold leave_requests_update.
  destruct (is_hr_or_admin db uid); [|done]. cbn.
  by rewrite lookup_alter_ne.
Qed.

Lemma leave_requests_update_denied (srv : server) (uid id0 by_ : uuid)
    (st : leave_status) (rem : option string) (db : database) :
  is_hr_or_admin db uid = false →
  leave_requests_update srv uid id0 st by_ rem db = db.
Proof. intros Hrole. unfold leave_requests_update. by rewrite Hrole. Qed.

(** Every write to [leave_requests] keeps [total_days] in step with the
    dates. *)
Lemma leave_requests_insert_consistent (srv : server) (uid u : uuid)
    (lt : leave_type) (sd ed : date) (why : string) (st : leave_status)
    (db db' : database) :
  map_Forall (λ _, leave_days_consistent) (leave_requests db) →
  leave_requests_insert srv uid u lt sd ed why st db = Some db' →
  map_Forall (λ _, leave_days_consistent) (leave_requests db').
Proof.
  intros Hinv. unfold leave_requests_insert.
  destruct (bool_decide (uid = u) || is_hr_or_admin db uid); [|done].
  destruct (leave_requests db !! gen_random_uuid srv); [done|].
  intros [= <-]. cbn. apply map_Forall_insert_2; [|done].
  apply calculate_leave_days_consistent.
Qed.

Lemma leave_requests_update_consistent (srv : server) (uid id0 by_ : uuid)
    (st : leave_status) (rem : option string) (db : database) :
  map_Forall (λ _, leave_days_consistent) (leave_requests db) →
  map_Forall (λ _, leave_days_consistent)
    (leave_requests (leave_requests_update srv uid id0 st by_ rem db)).
Proof.
  intros Hinv. unfold leave_requests_update.
  destruct (is_hr_or_admin db uid); [|done]. cbn.
  intros id1 r'. destruct (decide (id1 = id0)) as [->|Hne].
  - rewrite lookup_alter_eq. destruct (leave_requests db !! id0); [|done].
    intros [= <-]. reflexivity.
  - rewrite lookup_alter_ne by done. apply Hinv.
Qed.

(** A check-out update of the one row with the given id, owned by the
    issuer: the row gets the new [check_out], the hours the trigger
    computes and a new [updated_at]; every other row stays. *)
Lemma attendance_update_check_out_row (srv : server) (uid id0 : uuid)
    (co : timestamptz) (db : database) (k : uuid * Z)
    (r r1 : AttendanceRow.row) :
  attendance db !! k = Some r →
  AttendanceRow.id r = id0 →
  AttendanceRow.user_id r = uid →
  (∀ k' r', attendance db !! k' = Some r' →
            AttendanceRow.id r' = id0 → k' = k) →
  calculate_total_hours (AttendanceRow.with_check_out (Some co) r) = Some r1 →
  ∃ db', attendance_update_check_out srv uid id0 co db = Some db'
         ∧ attendance db' !! k = Some (attendance_update_updated_at srv r1)
         ∧ ∀ k', k' ≠ k → attendance db' !! k' = attendance db !! k'.
Proof.
  intros Hrow Hid Huid Huniq Htrig.
  unfold attendance_update_check_out, commit_rows.
  rewrite decide_True.
  - cbn. eexists. split; [reflexivity|]. cbn. split.
    + rewrite lookup_omap, lookup_fmap, Hrow. cbn.
      rewrite decide_True by done. by rewrite Htrig.
    + intros k' Hne. rewrite lookup_omap, lookup_fmap.
      destruct (attendance db !! k') as [r'|] eqn:Hrow'; [|done]. cbn.
      rewrite decide_False; [done|]. intros [Hid' _]. apply Hne.
      by eapply Huniq.
  - intros k' o. rewrite lookup_fmap.
    destruct (attendance db !! k') as [r'|] eqn:Hrow'; [|done]. cbn.
    intros [= <-]. case_decide as Hmatch; [|done].
    destruct Hmatch as [Hid' _]. assert (k' = k) as -> by by eapply Huniq.
    rewrite Hrow in Hrow'. injection Hrow' as <-. by rewrite Htrig.
Qed.

(** ** Leave days *)

(** C1. For every leave request whose start date is on or before its end
    date, the row written to [leave_requests], by an insert as by an
    update, carries [total_days = (end_date - start_date) + 1], both
    endpoints counted, and that number is at least 1. *)
Theorem C1_stored_total_days :
  (∀ (srv : server) (uid u : uuid) (lt : leave_type) (sd ed : date)
     (why : string) (st : leave_status) (db db' : database),
     sd ≤ ed →
     leave_requests_insert srv uid u lt sd ed why st db = Some db' →
     ∃ r, leave_requests db' !! gen_random_uuid srv = Some r
          ∧ LeaveRow.start_date r = sd
          ∧ LeaveRow.end_date r = ed
          ∧ LeaveRow.total_days r = Some ((ed - sd) + 1)
          ∧ 1 ≤ (ed - sd) + 1)
  ∧ (∀ (srv : server) (uid id0 by_ : uuid) (st : leave_status)
       (rem : option string) (db : database) (r : LeaveRow.row),
       LeaveRow.start_date r ≤ LeaveRow.end_date r →
       is_hr_or_admin db uid = true →
       leave_requests db !! id0 = Some r →
       ∃ r', leave_requests (leave_requests_update srv uid id0 st by_ rem db)
               !! id0 = Some r'
             ∧ LeaveRow.start_date r' = LeaveRow.start_date r
             ∧ LeaveRow.end_date r' = LeaveRow.end_date r
             ∧ LeaveRow.total_days r'
               = Some ((LeaveRow.end_date r - LeaveRow.start_date r) + 1)
             ∧ 1 ≤ (LeaveRow.end_date r - LeaveRow.start_date r) + 1).
Proof.
  split.
  - intros srv uid u lt sd ed why st db db' Hle Hins. eexists. split.
    + by apply (leave_requests_insert_row srv uid u lt sd ed why st db db').
    + cbn. repeat split. lia.
  - intros srv uid id0 by_ st rem db r Hle Hrole Hrow. eexists. split.
    + by apply leave_requests_update_row.
    + cbn. repeat split. lia.
Qed.

Lemma C1_stored_total_days_witness :
  ∃ r, leave_requests Scenario.db_pending !! 50%N = Some r
       ∧ LeaveRow.start_date r = Scenario.day_2025_02_01
       ∧ LeaveRow.end_date r = Scenario.day_2025_02_03
       ∧ LeaveRow.total_days r = Some 3
       ∧ 1 ≤ 3.
Proof.
  apply (proj1 C1_stored_total_days
           (Scenario.server_at Scenario.at_09_05 50%N) 1%N 1%N casual
           Scenario.day_2025_02_01 Scenario.day_2025_02_03 "family event"
           pending Scenario.db_empty Scenario.db_pending).
  - unfold Scenario.day_2025_02_01, Scenario.day_2025_02_03. lia.
  - vm_compute. reflexivity.
Defined.

(** ** Hours worked *)

(** C2, the claim as stated fails: for a check-in at 09:05 and a
    check-out at 17:30 on 2025-01-10 the trigger computes 8.42, which is
    neither the exact quotient 30300 / 3600 nor 8.4167. *)
Lemma C2_stored_hours_not_exact :
  AttendanceRow.total_hours <$>
    calculate_total_hours Scenario.row_checking_out
  = Some (Some 842)
  ∧ ¬ (hours_Q 842%Z == exact_hours Scenario.at_09_05 Scenario.at_17_30)%Q
  ∧ ¬ (hours_Q 842%Z == 84167 # 10000)%Q.
Proof.
  split; [vm_compute; reflexivity|].
  split; intros Heq; vm_compute in Heq; discriminate Heq.
Qed.

(** C2, amended. For every attendance row with check-in and check-out
    set, the trigger gives [total_hours] the hours between them rounded
    to two decimal places, half a hundredth going away from zero: the
    row is refused exactly when the interval is 99.995 hours or more;
    otherwise the value is within 0.005 of
    [(check_out - check_in) / 3600] seconds, is the one farther from
    zero when it is exactly 0.005 off, is below 100 in magnitude, and is
    exact when the interval is a whole number of hundredths of an hour
    (36 seconds).  09:05 to 17:30 on the same day gives 8.42. *)
Theorem C2_total_hours_rounded :
  (∀ (NEW : AttendanceRow.row) (ci co : timestamptz),
     AttendanceRow.check_in NEW = Some ci →
     AttendanceRow.check_out NEW = Some co →
     (calculate_total_hours NEW = None
      ↔ ((19999 # 200) <= Qabs (exact_hours ci co))%Q)
     ∧ (∀ stored, calculate_total_hours NEW = Some stored →
          ∃ h, stored = AttendanceRow.with_total_hours (Some h) NEW
               ∧ (Qabs (hours_Q h - exact_hours ci co) <= 1 # 200)%Q
               ∧ ((Qabs (hours_Q h - exact_hours ci co) == 1 # 200)%Q →
                  (Qabs (exact_hours ci co) < Qabs (hours_Q h))%Q)
               ∧ (Qabs (hours_Q h) < 100)%Q
               ∧ ((us_per_hundredth_hour | co - ci) →
                  (hours_Q h == exact_hours ci co)%Q)))
  ∧ AttendanceRow.total_hours <$>
      calculate_total_hours Scenario.row_checking_out
    = Some (Some 842).
Proof.
  split; [|vm_compute; reflexivity].
  intros NEW ci co Hci Hco.
  rewrite (calculate_total_hours_both NEW ci co Hci Hco).
  unfold to_decimal_4_2. case_decide as Hfit; cbn.
  - split.
    + split; [done|]. intros Hbig. apply exact_hours_large in Hbig.
      pose proof (round_div_too_large (co - ci) us_per_hundredth_hour
                    ltac:(done) Hbig). lia.
    + intros stored [= <-]. eexists. split; [reflexivity|].
      split; [|split; [|split]].
      * apply hours_Q_near, round_div_near. done.
      * intros Htie. apply hours_Q_farther, round_div_tie; [done|].
        by apply hours_Q_tie.
      * by apply hours_Q_bound.
      * intros [k Hk]. unfold exact_hours. rewrite Hk.
        rewrite round_div_exact by done. apply hours_Q_exact.
  - split; [|done]. split; [intros _|done].
    apply exact_hours_large, round_div_large; [done|lia].
Qed.

Lemma C2_total_hours_rounded_witness :
  (calculate_total_hours Scenario.row_checking_out = None
   ↔ ((19999 # 200)
      <= Qabs (exact_hours Scenario.at_09_05 Scenario.at_17_30))%Q)
  ∧ (∀ stored,
       calculate_total_hours Scenario.row_checking_out = Some stored →
       ∃ h, stored = AttendanceRow.with_total_hours (Some h)
                       Scenario.row_checking_out
            ∧ (Qabs (hours_Q h
                     - exact_hours Scenario.at_09_05 Scenario.at_17_30)
               <= 1 # 200)%Q
            ∧ ((Qabs (hours_Q h
                      - exact_hours Scenario.at_09_05 Scenario.at_17_30)
                == 1 # 200)%Q →
               (Qabs (exact_hours Scenario.at_09_05 Scenario.at_17_30)
                < Qabs (hours_Q h))%Q)
            ∧ (Qabs (hours_Q h) < 100)%Q
            ∧ ((us_per_hundredth_hour
                | Scenario.at_17_30 - Scenario.at_09_05) →
               (hours_Q h
                == exact_hours Scenario.at_09_05 Scenario.at_17_30)%Q)).
Proof.
  apply (proj1 C2_total_hours_rounded Scenario.row_checking_out
           Scenario.at_09_05 Scenario.at_17_30); reflexivity.
Defined.

(** An interval of a whole number of hundredths is kept exactly: eight
    and a half hours. *)
Example total_hours_exact_850 :
  AttendanceRow.total_hours <$>
    calculate_total_hours
      (AttendanceRow.with_check_out (Some (Scenario.at_09_05 + 30600000000))
         Scenario.row_checked_in)
  = Some (Some 850).
Proof. vm_compute. reflexivity. Qed.

(** Half a hundredth goes up: 18 seconds are 0.01 hours, 17 seconds
    none. *)
Example total_hours_half_up :
  AttendanceRow.total_hours <$>
    calculate_total_hours
      (AttendanceRow.with_check_out (Some (Scenario.at_09_05 + 18000000))
         Scenario.row_checked_in)
  = Some (Some 1)
  ∧ AttendanceRow.total_hours <$>
      calculate_total_hours
        (AttendanceRow.with_check_out (Some (Scenario.at_09_05 + 17000000))
           Scenario.row_checked_in)
    = Some (Some 0).
Proof. split; vm_compute; reflexivity. Qed.

(** The largest interval the column takes is one microsecond short of
    99.995 hours (359982 seconds), which is refused. *)
Example total_hours_overflow :
  calculate_total_hours
    (AttendanceRow.with_check_out (Some (Scenario.at_09_05 + 359982000000))
       Scenario.row_checked_in)
  = None
  ∧ AttendanceRow.total_hours <$>
      calculate_total_hours
        (AttendanceRow.with_check_out
           (Some (Scenario.at_09_05 + 359981999999))
           Scenario.row_checked_in)
    = Some (Some 9999).
Proof. split; vm_compute; reflexivity. Qed.

(** ** Check-in and check-out *)

(** The Attendance page refuses a check-in when the row it fetched for
    today already has one, before any call to the store. *)
Lemma Attendance_handleCheckIn_already (b : browser) (srv : server)
    (p : ProfileRow.row) (todayAttendance : option AttendanceRow.row)
    (db : database) :
  Attendance_checkIn_disabled todayAttendance = true →
  Attendance_handleCheckIn b srv (Some p) todayAttendance db
  = (db, Some (Toast "Already Checked In" true)).
Proof.
  unfold Attendance_checkIn_disabled, Attendance_handleCheckIn.
  by intros ->.
Qed.

(** It refuses a check-out likewise when that row already has one. *)
Lemma Attendance_handleCheckOut_already (b : browser) (srv : server)
    (p : ProfileRow.row) (today : AttendanceRow.row) (db : database) :
  truthy (AttendanceRow.check_out today) = true →
  Attendance_handleCheckOut b srv (Some p) (Some today) db
  = (db, Some (Toast "Already Checked Out" true)).
Proof. unfold Attendance_handleCheckOut. by intros ->. Qed.

(** Without a fetched row for today neither page checks out. *)
Lemma handleCheckOut_no_record (b : browser) (srv : server)
    (profile : option ProfileRow.row) (db : database) :
  Attendance_handleCheckOut b srv profile None db = (db, None)
  ∧ Dashboard_handleCheckOut b srv profile None db = (db, None).
Proof.
  unfold Attendance_handleCheckOut, Dashboard_handleCheckOut.
  by destruct profile.
Qed.

(** The upsert of a check-in needs the [SELECT] policies of
    [attendance], one of which selects from [profiles]: it is refused,
    and each page shows its failure toast over an unchanged store. *)
Lemma handleCheckIn_refused (b : browser) (srv : server)
    (p : ProfileRow.row) (todayAttendance : option AttendanceRow.row)
    (db : database) :
  Attendance_handleCheckIn b srv (Some p) todayAttendance db
  = (db, Some (Toast (if Attendance_checkIn_disabled todayAttendance
                      then "Already Checked In" else "Check-In Failed")
                 true))
  ∧ Dashboard_handleCheckIn b srv (Some p) db
    = (db, Some (Toast "Error" true)).
Proof.
  unfold Attendance_handleCheckIn, Dashboard_handleCheckIn,
    Attendance_checkIn_disabled. cbv zeta.
  rewrite !(as_client_refused (stmt_upsert rel_attendance)) by done.
  by destruct (truthy _).
Qed.


(** C3. For every user and day that already has a row with a check-in, a
    second check-in fails and leaves the store, and so the row, as it
    is, on either page and whatever the page has fetched: the Attendance
    page shows a destructive toast ("Already Checked In" without any
    call to the store when the page holds that row), the Dashboard its
    "Error" toast. *)
Theorem C3_second_check_in_fails (b : browser) (srv : server)
    (p : ProfileRow.row) (todayAttendance : option AttendanceRow.row)
    (db : database) (r : AttendanceRow.row) :
  attendance db !! (ProfileRow.user_id p, format_date b) = Some r →
  AttendanceRow.check_in r ≠ None →
  (∃ t, Attendance_handleCheckIn b srv (Some p) todayAttendance db
        = (db, Some t)
        ∧ destructive t = true)
  ∧ Attendance_handleCheckIn b srv (Some p) (Some r) db
    = (db, Some (Toast "Already Checked In" true))
  ∧ Dashboard_handleCheckIn b srv (Some p) db
    = (db, Some (Toast "Error" true))
  ∧ attendance (Attendance_handleCheckIn b srv (Some p) todayAttendance db).1
      !! (ProfileRow.user_id p, format_date b) = Some r
  ∧ attendance (Dashboard_handleCheckIn b srv (Some p) db).1
      !! (ProfileRow.user_id p, format_date b) = Some r.
Proof.
  intros Hrow Hci.
  destruct (handleCheckIn_refused b srv p todayAttendance db) as [Ha Hd].
  rewrite Ha, Hd. cbn [fst].
  split; [eexists; split; reflexivity|].
  split; [|done].
  apply Attendance_handleCheckIn_already.
  unfold Attendance_checkIn_disabled. cbn.
  by destruct (AttendanceRow.check_in r).
Qed.

Lemma C3_second_check_in_fails_witness :
  (∃ t, Attendance_handleCheckIn (Scenario.browser_at Scenario.at_09_07)
          (Scenario.server_at Scenario.at_09_07 8%N) (Some Scenario.alice)
          None Scenario.db_checked_in
        = (Scenario.db_checked_in, Some t)
        ∧ destructive t = true)
  ∧ Dashboard_handleCheckIn (Scenario.browser_at Scenario.at_09_07)
      (Scenario.server_at Scenario.at_09_07 8%N) (Some Scenario.alice)
      Scenario.db_checked_in
    = (Scenario.db_checked_in, Some (Toast "Error" true)).
Proof.
  destruct (C3_second_check_in_fails
              (Scenario.browser_at Scenario.at_09_07)
              (Scenario.server_at Scenario.at_09_07 8%N) Scenario.alice
              None Scenario.db_checked_in Scenario.row_checked_in)
    as (Ha & _ & Hd & _).
  - reflexivity.
  - discriminate.
  - split; [exact Ha | exact Hd].
Defined.


(** The parts of the check-out rule that the handlers do keep: a row
    that already has a check-out is left as it is by a further attempt,
    on either page. *)
Example second_check_out_unchanged :
  Attendance_handleCheckOut (Scenario.browser_at Scenario.at_18_30)
    (Scenario.server_at Scenario.at_18_30 0%N) (Some Scenario.alice)
    (Some Scenario.row_checked_out) Scenario.db_checked_out
  = (Scenario.db_checked_out, Some (Toast "Already Checked Out" true))
  ∧ Dashboard_handleCheckOut (Scenario.browser_at Scenario.at_18_30)
      (Scenario.server_at Scenario.at_18_30 0%N) (Some Scenario.alice)
      (Some Scenario.row_checked_in) Scenario.db_checked_out
    = (Scenario.db_checked_out, Some (Toast "Error" true)).
Proof. split; vm_compute; reflexivity. Qed.

(** C9. The hours trigger returns a row in which check-in or check-out
    is null as it came, [total_hours] included, so a first check-in
    must store a row whose [total_hours] is null.  It stores none:
    Alice's first check-in of 2025-01-10 at 09:05 is refused on both
    pages when the policies of [attendance] are added to the upsert,
    and the day stays without a row; the upsert itself would have
    stored the row with [total_hours] null. *)
Theorem C9_first_check_in_refused :
  (∀ NEW : AttendanceRow.row,
     AttendanceRow.check_in NEW = None ∨ AttendanceRow.check_out NEW = None →
     calculate_total_hours NEW = Some NEW)
  ∧ attendance Scenario.db_empty !! (1%N, Scenario.day_2025_01_10) = None
  ∧ Attendance_checkIn_disabled None = false
  ∧ Dashboard_quick_action (Some Scenario.alice) None = Some CheckInButton
  ∧ Attendance_handleCheckIn (Scenario.browser_at Scenario.at_09_05)
      (Scenario.server_at Scenario.at_09_05 7%N) (Some Scenario.alice) None
      Scenario.db_empty
    = (Scenario.db_empty, Some (Toast "Check-In Failed" true))
  ∧ Dashboard_handleCheckIn (Scenario.browser_at Scenario.at_09_05)
      (Scenario.server_at Scenario.at_09_05 7%N) (Some Scenario.alice)
      Scenario.db_empty
    = (Scenario.db_empty, Some (Toast "Error" true))
  ∧ rewrite_statement (stmt_upsert rel_attendance)
    = infinite_recursion rel_profiles
  ∧ attendance_upsert (Scenario.server_at Scenario.at_09_05 7%N) 1%N 1%N
      Scenario.day_2025_01_10 Scenario.at_09_05 present Scenario.db_empty
    = Some Scenario.db_checked_in
  ∧ AttendanceRow.total_hours Scenario.row_checked_in = None.
Proof.
  split; [exact calculate_total_hours_missing|].
  repeat split; vm_compute; reflexivity.
Qed.

Lemma C9_first_check_in_refused_witness :
  calculate_total_hours Scenario.row_checked_in
  = Some Scenario.row_checked_in.
Proof.
  apply (proj1 C9_first_check_in_refused Scenario.row_checked_in).
  right. reflexivity.
Defined.

(** ** Leave requests *)

Lemma parse_leave_type_nonempty (s : string) (lt : leave_type) :
  parse_leave_type s = Some lt → nonempty s = true.
Proof. by destruct s. Qed.

(** An incomplete form is turned down by the handler itself; a complete
    one reaches the insert, which is refused when the policies of
    [leave_requests] are added: its policy for HR selects from
    [profiles]. *)
Lemma handleSubmitLeaveRequest_refused (srv : server) (p : ProfileRow.row)
    (f : NewLeaveRequest) (db : database) :
  handleSubmitLeaveRequest srv (Some p) f db
  = (db, Some (Toast (if missing_field f then "Validation Error"
                      else "Submission Failed") true)).
Proof.
  unfold handleSubmitLeaveRequest, missing_field.
  rewrite (as_client_refused (stmt_insert rel_leave_requests)) by done.
  by destruct (_ || _).
Qed.

(** The update behind Approve and Reject is refused in the same way. *)
Lemma handleApproveReject_refused (srv : server) (p : ProfileRow.row)
    (id0 : uuid) (d : decision) (rem : option string) (db : database) :
  handleApproveReject srv (Some p) id0 d rem db
  = (db, Some (Toast "Action Failed" true)).
Proof.
  unfold handleApproveReject.
  by rewrite (as_client_refused (stmt_update rel_leave_requests)).
Qed.

(** What the update behind Approve writes when it runs, for a request
    that has no remarks yet, as every request the handlers have written:
    status and approver, and nothing else of the request's own fields. *)
Lemma leave_requests_update_approve (srv : server) (uid id0 : uuid)
    (db : database) (r : LeaveRow.row) :
  is_hr_or_admin db uid = true →
  leave_requests db !! id0 = Some r →
  leave_days_consistent r →
  LeaveRow.remarks r = None →
  ∃ r', leave_requests
          (leave_requests_update srv uid id0 approved uid
             (remarks_or_null None) db) !! id0 = Some r'
        ∧ LeaveRow.status r' = Some approved
        ∧ LeaveRow.approved_by r' = Some uid
        ∧ LeaveRow.leave_type r' = LeaveRow.leave_type r
        ∧ LeaveRow.start_date r' = LeaveRow.start_date r
        ∧ LeaveRow.end_date r' = LeaveRow.end_date r
        ∧ LeaveRow.reason r' = LeaveRow.reason r
        ∧ LeaveRow.remarks r' = LeaveRow.remarks r
        ∧ LeaveRow.total_days r' = LeaveRow.total_days r
        ∧ LeaveRow.user_id r' = LeaveRow.user_id r.
Proof.
  intros Hrole Hrow Hdays Hrem. eexists.
  split; [by apply leave_requests_update_row|].
  cbn. by rewrite Hdays, Hrem.
Qed.

(** Alice's forms: one without a reason, one complete. *)
Example submit_cases :
  handleSubmitLeaveRequest (Scenario.server_at Scenario.at_09_05 50%N)
    (Some Scenario.alice) Scenario.form_no_reason Scenario.db_empty
  = (Scenario.db_empty, Some (Toast "Validation Error" true))
  ∧ handleSubmitLeaveRequest (Scenario.server_at Scenario.at_09_05 50%N)
      (Some Scenario.alice) Scenario.form_three_days Scenario.db_empty
    = (Scenario.db_empty, Some (Toast "Submission Failed" true))
  ∧ rewrite_statement (stmt_insert rel_leave_requests)
    = infinite_recursion rel_profiles.
Proof. repeat split; vm_compute; reflexivity. Qed.

(** The form itself does not let a backwards submission through. *)
Example form_backwards_out_of_range :
  form_in_range Scenario.day_2025_02_01 Scenario.form_backwards = false.
Proof. reflexivity. Qed.

(** C5. For every submission whose start date is after its end date the
    request is rejected before any store call: the end-date input has
    the start date as its minimum, so the form raises no submit event,
    the handler is not called, and the store is as it was.  Called all
    the same, the handler leaves the store as it was too. *)
Theorem C5_backwards_dates_rejected (today : date) (srv : server)
    (profile : option ProfileRow.row) (f : NewLeaveRequest)
    (db : database) (sd ed : date) :
  startDate f = Some sd →
  endDate f = Some ed →
  ed < sd →
  form_in_range today f = false
  ∧ LeaveRequestForm_submit today srv profile f db = (db, None)
  ∧ (handleSubmitLeaveRequest srv profile f db).1 = db.
Proof.
  intros Hsd Hed Hlt.
  assert (Hform : form_in_range today f = false).
  { unfold form_in_range, endDate_min. rewrite Hsd, Hed. cbn.
    rewrite (bool_decide_eq_false_2 (sd ≤ ed)) by lia.
    apply andb_false_r. }
  split; [done|]. split.
  - unfold LeaveRequestForm_submit. by rewrite Hform.
  - destruct profile as [p|]; [|done].
    by rewrite handleSubmitLeaveRequest_refused.
Qed.

Lemma C5_backwards_dates_rejected_witness :
  form_in_range Scenario.day_2025_02_01 Scenario.form_backwards = false
  ∧ LeaveRequestForm_submit Scenario.day_2025_02_01
      (Scenario.server_at Scenario.at_09_05 50%N) (Some Scenario.alice)
      Scenario.form_backwards Scenario.db_empty
    = (Scenario.db_empty, None)
  ∧ (handleSubmitLeaveRequest (Scenario.server_at Scenario.at_09_05 50%N)
       (Some Scenario.alice) Scenario.form_backwards Scenario.db_empty).1
    = Scenario.db_empty.
Proof.
  apply (C5_backwards_dates_rejected Scenario.day_2025_02_01
           (Scenario.server_at Scenario.at_09_05 50%N) (Some Scenario.alice)
           Scenario.form_backwards Scenario.db_empty
           Scenario.day_2025_02_03 Scenario.day_2025_02_01).
  - reflexivity.
  - reflexivity.
  - unfold Scenario.day_2025_02_01, Scenario.day_2025_02_03. lia.
Defined.

(** C6. The status transition writes only approved or rejected, and for
    every request whose status is approved or rejected it changes
    nothing: called by anyone, for either decision and with any
    remarks, it leaves the whole store, and so the request with its
    status and every other field, as it was, showing "Action Failed";
    and the page renders neither button for such a request. *)
Theorem C6_decided_request_unchanged (srv : server)
    (profile : option ProfileRow.row) (id0 : uuid) (d : decision)
    (rem : option string) (db : database) (r : LeaveRow.row) :
  leave_requests db !! id0 = Some r →
  LeaveRow.status r = Some approved ∨ LeaveRow.status r = Some rejected →
  (handleApproveReject srv profile id0 d rem db).1 = db
  ∧ leave_requests (handleApproveReject srv profile id0 d rem db).1 !! id0
    = Some r
  ∧ (∀ p, profile = Some p →
          (handleApproveReject srv profile id0 d rem db).2
          = Some (Toast "Action Failed" true))
  ∧ shows_actions profile r = false
  ∧ (decision_status d = approved ∨ decision_status d = rejected).
Proof.
  intros Hrow Hst.
  assert (Hsame : (handleApproveReject srv profile id0 d rem db).1 = db).
  { destruct profile as [p|]; [|done].
    by rewrite handleApproveReject_refused. }
  rewrite Hsame. split; [done|]. split; [done|]. split; [|split].
  - intros p ->. by rewrite handleApproveReject_refused.
  - unfold shows_actions. rewrite (bool_decide_eq_false_2 (_ = Some pending)).
    + apply andb_false_r.
    + destruct Hst as [-> | ->]; discriminate.
  - destruct d; auto.
Qed.

Lemma C6_decided_request_unchanged_witness :
  (handleApproveReject (Scenario.server_at Scenario.at_18_30 0%N)
     (Some Scenario.ravi) 50%N reject None Scenario.db_approved).1
  = Scenario.db_approved
  ∧ leave_requests
      (handleApproveReject (Scenario.server_at Scenario.at_18_30 0%N)
         (Some Scenario.ravi) 50%N reject None Scenario.db_approved).1
      !! 50%N
    = Some Scenario.request_approved
  ∧ (handleApproveReject (Scenario.server_at Scenario.at_18_30 0%N)
       (Some Scenario.ravi) 50%N reject None Scenario.db_approved).2
    = Some (Toast "Action Failed" true).
Proof.
  destruct (C6_decided_request_unchanged
              (Scenario.server_at Scenario.at_18_30 0%N)
              (Some Scenario.ravi) 50%N reject None Scenario.db_approved
              Scenario.request_approved)
    as (Hdb & Hrow & Htoast & _).
  - reflexivity.
  - left. reflexivity.
  - split; [exact Hdb|]. split; [exact Hrow|].
    exact (Htoast Scenario.ravi eq_refl).
Defined.


(** ** Aggregation *)

Lemma sum_total_hours_from (records : list AttendanceRow.row) (acc : Z) :
  fold_left (λ sum r, sum + or_zero (AttendanceRow.total_hours r)) records acc
  = acc + sum_non_null records.
Proof.
  revert acc. induction records as [|r records IH]; intros acc.
  - unfold sum_non_null. cbn. lia.
  - cbn [fold_left]. rewrite IH. unfold sum_non_null. cbn [omap list_omap].
    destruct (AttendanceRow.total_hours r) as [h|]; cbn.
    + destruct (Z.eqb_spec h 0); lia.
    + lia.
Qed.

Lemma sum_total_hours_non_null (records : list AttendanceRow.row) :
  sum_total_hours records = sum_non_null records.
Proof. unfold sum_total_hours. by rewrite sum_total_hours_from. Qed.

Lemma foldr_add_from (hs : list Z) (b : Z) :
  foldr Z.add b hs = foldr Z.add 0 hs + b.
Proof. induction hs as [|h hs IH]; cbn; lia. Qed.

Lemma sum_non_null_app (l1 l2 : list AttendanceRow.row) :
  sum_non_null (l1 ++ l2) = sum_non_null l1 + sum_non_null l2.
Proof.
  unfold sum_non_null. rewrite omap_app, foldr_app.
  apply foldr_add_from.
Qed.

Lemma total_hours_not_null_same (rows : list AttendanceRow.row) :
  omap AttendanceRow.total_hours (total_hours_not_null rows)
  = omap AttendanceRow.total_hours rows.
Proof.
  induction rows as [|r rows IH]; [done|].
  cbn. destruct (AttendanceRow.total_hours r) eqn:Hh; cbn; rewrite ?Hh;
    by rewrite <- IH.
Qed.

Lemma filter_cons_length {A} (f : A → bool) (x : A) (l : list A) :
  length (List.filter f (x :: l))
  = (Nat.b2n (f x) + length (List.filter f l))%nat.
Proof. cbn. by destruct (f x). Qed.

(** A row with one of the three statuses is counted by exactly one of
    the three filters. *)
Lemma status_counted_once (r : AttendanceRow.row) :
  AttendanceRow.status r = Some present
  ∨ AttendanceRow.status r = Some late
  ∨ AttendanceRow.status r = Some absent →
  (Nat.b2n (status_is present r) + Nat.b2n (status_is late r)
   + Nat.b2n (status_is absent r) = 1)%nat.
Proof.
  unfold status_is. intros [Hst|[Hst|Hst]]; rewrite Hst; reflexivity.
Qed.

(** C8. For every list of attendance records of a month in which each
    status is present, late or absent, the three counts of the monthly
    statistics add up to [totalDays], the number of records. *)
Theorem C8_status_counts (records : list AttendanceRow.row) :
  Forall (λ r, AttendanceRow.status r = Some present
               ∨ AttendanceRow.status r = Some late
               ∨ AttendanceRow.status r = Some absent) records →
  (presentDays (monthlyStats records) + lateDays (monthlyStats records)
   + absentDays (monthlyStats records)
   = totalDays (monthlyStats records))%nat
  ∧ totalDays (monthlyStats records) = length records.
Proof.
  intros Hall. split; [|reflexivity]. cbn [monthlyStats totalDays
    presentDays lateDays absentDays].
  induction Hall as [|r records Hr _ IH]; [reflexivity|].
  rewrite !filter_cons_length. cbn [length].
  pose proof (status_counted_once r Hr). lia.
Qed.

Lemma C8_status_counts_witness :
  (presentDays (monthlyStats Scenario.month_records)
   + lateDays (monthlyStats Scenario.month_records)
   + absentDays (monthlyStats Scenario.month_records)
   = totalDays (monthlyStats Scenario.month_records))%nat
  ∧ totalDays (monthlyStats Scenario.month_records)
    = length Scenario.month_records.
Proof.
  apply (C8_status_counts Scenario.month_records).
  unfold Scenario.month_records.
  repeat (apply Forall_cons; split; [cbn; tauto|]). apply Forall_nil.
  exact I.
Defined.

(** A row whose status is null is counted in [totalDays] and in none of
    the three status counts. *)
Example status_null_uncounted :
  monthlyStats
    [AttendanceRow.with_status None Scenario.row_checked_out]
  = mkstats 1 0 0 0 842.
Proof. reflexivity. Qed.

(** C10. In the monthly total of hours every record whose [total_hours]
    is null contributes 0: the sum computed by the Attendance page, and
    the one computed by the Dashboard over the rows its query keeps, is
    the sum of [total_hours] over the records where it is not null, and
    a record without check-out, wherever it stands in the list, does not
    change the total. *)
Theorem C10_null_hours_contribute_zero :
  (∀ records : list AttendanceRow.row,
     totalHours (monthlyStats records) = sum_non_null records)
  ∧ (∀ rows : list AttendanceRow.row,
       totalHoursThisMonth rows = sum_non_null rows)
  ∧ (∀ (before after : list AttendanceRow.row) (r : AttendanceRow.row),
       AttendanceRow.total_hours r = None →
       totalHours (monthlyStats (before ++ r :: after))
       = totalHours (monthlyStats (before ++ after))).
Proof.
  split; [|split].
  - intros records. apply sum_total_hours_non_null.
  - intros rows. unfold totalHoursThisMonth.
    rewrite sum_total_hours_non_null. unfold sum_non_null.
    by rewrite total_hours_not_null_same.
  - intros before after r Hnull. cbn [totalHours monthlyStats].
    rewrite !sum_total_hours_non_null, !sum_non_null_app.
    unfold sum_non_null at 2. cbn [omap list_omap]. by rewrite Hnull.
Qed.

Lemma C10_null_hours_contribute_zero_witness :
  totalHours (monthlyStats Scenario.month_records)
  = totalHours (monthlyStats [Scenario.row_late; Scenario.row_checked_out]).
Proof.
  apply (proj2 (proj2 C10_null_hours_contribute_zero)
           [Scenario.row_late] [Scenario.row_checked_out] Scenario.row_open).
  reflexivity.
Defined.

(** The month of the scenario: 7.50 and 8.42 hours, the open day adding
    nothing. *)
Example month_total_hours :
  monthlyStats Scenario.month_records = mkstats 3 2 1 0 1592.
Proof. reflexivity. Qed.

(** * Further properties *)

(** ** What the attendance statements do to the store *)

Lemma calculate_total_hours_consistent (r r' : AttendanceRow.row) :
  calculate_total_hours r = Some r' → hours_consistent r'.
Proof.
  unfold calculate_total_hours.
  destruct (AttendanceRow.check_in r) as [ci|] eqn:Hci;
    [destruct (AttendanceRow.check_out r) as [co|] eqn:Hco|].
  - unfold to_decimal_4_2. case_decide; [|done]. cbn. intros [= <-].
    intros ci' co'. cbn. rewrite Hci, Hco. by intros [= <-] [= <-].
  - intros [= <-] ci' co' _. by rewrite Hco.
  - intros [= <-] ci' co'. by rewrite Hci.
Qed.

Lemma calculate_total_hours_frame (r r' : AttendanceRow.row) :
  calculate_total_hours r = Some r' →
  AttendanceRow.id r' = AttendanceRow.id r
  ∧ AttendanceRow.user_id r' = AttendanceRow.user_id r
  ∧ AttendanceRow.date r' = AttendanceRow.date r
  ∧ AttendanceRow.check_in r' = AttendanceRow.check_in r
  ∧ AttendanceRow.check_out r' = AttendanceRow.check_out r
  ∧ AttendanceRow.status r' = AttendanceRow.status r
  ∧ AttendanceRow.created_at r' = AttendanceRow.created_at r
  ∧ AttendanceRow.updated_at r' = AttendanceRow.updated_at r.
Proof.
  destruct (AttendanceRow.check_in r) as [ci|] eqn:Hci;
    [destruct (AttendanceRow.check_out r) as [co|] eqn:Hco|].
  - rewrite (calculate_total_hours_both r ci co Hci Hco).
    destruct (to_decimal_4_2 _); [|done]. cbn. intros [= <-]. cbn.
    by rewrite Hci, Hco.
  - rewrite calculate_total_hours_missing by (by right).
    intros [= <-]. by rewrite Hco.
  - rewrite calculate_total_hours_missing by (by left).
    intros [= <-]. by rewrite Hci.
Qed.

(** The row a successful upsert leaves under [(u, d)], and nothing else
    changed. *)
Lemma attendance_upsert_inv (srv : server) (uid u : uuid) (d : date)
    (ci : timestamptz) (st : attendance_status) (db db' : database) :
  attendance_upsert srv uid u d ci st db = Some db' →
  ∃ r, db' = set_attendance (<[(u, d) := r]> (attendance db)) db
       ∧ hours_consistent r
       ∧ AttendanceRow.check_in r = Some ci
       ∧ AttendanceRow.status r = Some st
       ∧ match attendance db !! (u, d) with
         | None =>
             r = AttendanceRow.mk (gen_random_uuid srv) u d (Some ci) None
                   (Some st) None (NOW srv) (NOW srv)
         | Some old =>
             AttendanceRow.id r = AttendanceRow.id old
             ∧ AttendanceRow.user_id r = AttendanceRow.user_id old
             ∧ AttendanceRow.date r = AttendanceRow.date old
             ∧ AttendanceRow.check_out r = AttendanceRow.check_out old
             ∧ AttendanceRow.created_at r = AttendanceRow.created_at old
             ∧ AttendanceRow.updated_at r = NOW srv
         end.
Proof.
  unfold attendance_upsert. case_decide as Huid; [|done].
  rewrite calculate_total_hours_missing by (right; reflexivity).
  cbn [mbind option_bind].
  destruct (attendance db !! (u, d)) as [old|] eqn:Hold.
  - destruct (calculate_total_hours _) as [r|] eqn:Htrig; [|done].
    cbn. intros [= <-]. eexists. split; [reflexivity|].
    pose proof (calculate_total_hours_consistent _ _ Htrig) as Hcons.
    destruct (calculate_total_hours_frame _ _ Htrig)
      as (Hid & Hu & Hd & Hci & Hco & Hst & Hcr & _).
    cbn in Hid, Hu, Hd, Hci, Hco, Hst, Hcr.
    split; [intros ci' co'; cbn; apply Hcons|].
    cbn. by rewrite Hci, Hst, Hid, Hu, Hd, Hco, Hcr.
  - intros [= <-]. eexists. split; [reflexivity|].
    split; [|done]. intros ci' co'. cbn. done.
Qed.

(** The check-out update, row by row. *)
Lemma attendance_update_check_out_lookup (srv : server) (uid id0 : uuid)
    (co : timestamptz) (db db' : database) :
  attendance_update_check_out srv uid id0 co db = Some db' →
  profiles db' = profiles db
  ∧ leave_requests db' = leave_requests db
  ∧ (∀ k, attendance db' !! k
          = attendance db !! k ≫= check_out_row srv uid id0 co)
  ∧ (∀ k r, attendance db !! k = Some r →
            is_Some (check_out_row srv uid id0 co r)).
Proof.
  unfold attendance_update_check_out, commit_rows.
  case_decide as Hall; [|done]. cbn. intros [= <-]. cbn.
  split; [done|]. split; [done|]. split.
  - intros k. rewrite lookup_omap, lookup_fmap.
    by destruct (attendance db !! k).
  - intros k r Hrow. apply (Hall k). by rewrite lookup_fmap, Hrow.
Qed.


Lemma check_out_row_consistent (srv : server) (uid id0 : uuid)
    (co : timestamptz) (r r' : AttendanceRow.row) :
  hours_consistent r →
  check_out_row srv uid id0 co r = Some r' →
  hours_consistent r'.
Proof.
  intros Hcons. unfold check_out_row. case_decide; [|by intros [= <-]].
  destruct (calculate_total_hours _) as [r1|] eqn:Htrig; [|done].
  cbn. intros [= <-] ci' co'. cbn.
  apply (calculate_total_hours_consistent _ _ Htrig).
Qed.

Lemma check_out_row_key (srv : server) (uid id0 : uuid)
    (co : timestamptz) (r r' : AttendanceRow.row) :
  check_out_row srv uid id0 co r = Some r' →
  AttendanceRow.id r' = AttendanceRow.id r
  ∧ AttendanceRow.user_id r' = AttendanceRow.user_id r
  ∧ AttendanceRow.date r' = AttendanceRow.date r
  ∧ AttendanceRow.check_in r' = AttendanceRow.check_in r
  ∧ AttendanceRow.status r' = AttendanceRow.status r
  ∧ AttendanceRow.created_at r' = AttendanceRow.created_at r.
Proof.
  unfold check_out_row. case_decide; [|by intros [= <-]].
  destruct (calculate_total_hours _) as [r1|] eqn:Htrig; [|done].
  cbn. intros [= <-].
  destruct (calculate_total_hours_frame _ _ Htrig)
    as (Hid & Hu & Hd & Hci & _ & Hst & Hcr & _).
  cbn in *. done.
Qed.

(** The four handlers either leave the store as it is or write through
    one of the two statements. *)
Lemma check_in_handlers_cases (b : browser) (srv : server)
    (profile : option ProfileRow.row)
    (today : option AttendanceRow.row) (db : database) :
  ∀ out, out = Attendance_handleCheckIn b srv profile today db
         ∨ out = Dashboard_handleCheckIn b srv profile db →
  out.1 = db
  ∨ ∃ p, profile = Some p
         ∧ attendance_upsert srv (ProfileRow.user_id p) (ProfileRow.user_id p)
             (format_date b) (client_now b) present db = Some out.1.
Proof.
  intros out [-> | ->];
    unfold Attendance_handleCheckIn, Dashboard_handleCheckIn;
    destruct profile as [p|]; [|by left| |by left].
  - destruct (truthy _); [by left|].
    destruct (as_client _ _) eqn:Hup; [|by left].
    apply as_client_Some in Hup. right. eauto.
  - destruct (as_client _ _) eqn:Hup; [|by left].
    apply as_client_Some in Hup. right. eauto.
Qed.

Lemma check_out_handlers_cases (b : browser) (srv : server)
    (profile : option ProfileRow.row)
    (today : option AttendanceRow.row) (db : database) :
  ∀ out, out = Attendance_handleCheckOut b srv profile today db
         ∨ out = Dashboard_handleCheckOut b srv profile today db →
  out.1 = db
  ∨ ∃ p t, profile = Some p ∧ today = Some t
           ∧ attendance_update_check_out srv (ProfileRow.user_id p)
               (AttendanceRow.id t) (client_now b) db = Some out.1.
Proof.
  intros out [-> | ->];
    unfold Attendance_handleCheckOut, Dashboard_handleCheckOut;
    destruct profile as [p|], today as [t|];
    [|by left|by left|by left| |by left|by left|by left].
  - destruct (truthy _); [by left|].
    destruct (as_client _ _) eqn:Hup; [|by left].
    apply as_client_Some in Hup. right. eauto.
  - destruct (as_client _ _) eqn:Hup; [|by left].
    apply as_client_Some in Hup. right. eauto.
Qed.

Lemma attendance_handlers_cases (b : browser) (srv : server)
    (profile : option ProfileRow.row)
    (today : option AttendanceRow.row) (db : database) :
  ∀ out, out = Attendance_handleCheckIn b srv profile today db
         ∨ out = Dashboard_handleCheckIn b srv profile db
         ∨ out = Attendance_handleCheckOut b srv profile today db
         ∨ out = Dashboard_handleCheckOut b srv profile today db →
  out.1 = db
  ∨ (∃ u d ci st, attendance_upsert srv u u d ci st db = Some out.1)
  ∨ (∃ u i co, attendance_update_check_out srv u i co db = Some out.1).
Proof.
  intros out [H|[H|[H|H]]].
  - destruct (check_in_handlers_cases b srv profile today db out)
      as [?|(p & _ & Hup)]; eauto 10.
  - destruct (check_in_handlers_cases b srv profile today db out)
      as [?|(p & _ & Hup)]; eauto 10.
  - destruct (check_out_handlers_cases b srv profile today db out)
      as [?|(p & t & _ & _ & Hup)]; eauto 10.
  - destruct (check_out_handlers_cases b srv profile today db out)
      as [?|(p & t & _ & _ & Hup)]; eauto 10.
Qed.

(** ** Invariants of the attendance table *)

(** X1. Whatever they are called with, the four check-in and check-out
    handlers keep the hours of every stored row in step with its
    timestamps: if every row that has both [check_in] and [check_out]
    carried the rounded quotient before, it does so afterwards. *)
Theorem attendance_hours_invariant (b : browser) (srv : server)
    (profile : option ProfileRow.row)
    (today : option AttendanceRow.row) (db : database) :
  map_Forall (λ _, hours_consistent) (attendance db) →
  ∀ out, out = Attendance_handleCheckIn b srv profile today db
         ∨ out = Dashboard_handleCheckIn b srv profile db
         ∨ out = Attendance_handleCheckOut b srv profile today db
         ∨ out = Dashboard_handleCheckOut b srv profile today db →
  map_Forall (λ _, hours_consistent) (attendance out.1).
Proof.
  intros Hinv out Hout.
  destruct (attendance_handlers_cases b srv profile today db out Hout)
    as [-> | [(u & d & ci & st & Hup) | (u & i & co & Hup)]].
  - done.
  - destruct (attendance_upsert_inv _ _ _ _ _ _ _ _ Hup)
      as (r & -> & Hcons & _).
    cbn. by apply map_Forall_insert_2.
  - destruct (attendance_update_check_out_lookup _ _ _ _ _ _ Hup)
      as (_ & _ & Hlook & _).
    intros k r'. rewrite Hlook.
    destruct (attendance db !! k) as [r|] eqn:Hrow; [|done]. cbn.
    apply check_out_row_consistent. by eapply Hinv.
Qed.

Lemma attendance_hours_invariant_witness :
  map_Forall (λ _, hours_consistent)
    (attendance
       (Dashboard_handleCheckOut (Scenario.browser_at Scenario.at_18_30)
          (Scenario.server_at Scenario.at_18_30 0%N) (Some Scenario.alice)
          (Some Scenario.row_checked_in) Scenario.db_checked_out).1).
Proof.
  apply (attendance_hours_invariant (Scenario.browser_at Scenario.at_18_30)
           (Scenario.server_at Scenario.at_18_30 0%N) (Some Scenario.alice)
           (Some Scenario.row_checked_in) Scenario.db_checked_out).
  - apply map_Forall_singleton. intros ci co Hci Hco.
    injection Hci as <-. injection Hco as <-. vm_compute. reflexivity.
  - right. right. right. reflexivity.
Defined.

(** The statements file each row under its own user and day. *)
Lemma attendance_keyed_preserved (b : browser) (srv : server)
    (profile : option ProfileRow.row)
    (today : option AttendanceRow.row) (db : database) :
  attendance_keyed db →
  ∀ out, out = Attendance_handleCheckIn b srv profile today db
         ∨ out = Dashboard_handleCheckIn b srv profile db
         ∨ out = Attendance_handleCheckOut b srv profile today db
         ∨ out = Dashboard_handleCheckOut b srv profile today db →
  attendance_keyed out.1.
Proof.
  intros Hkey out Hout.
  destruct (attendance_handlers_cases b srv profile today db out Hout)
    as [-> | [(u & d & ci & st & Hup) | (u & i & co & Hup)]].
  - done.
  - destruct (attendance_upsert_inv _ _ _ _ _ _ _ _ Hup)
      as (r & -> & _ & _ & _ & Hrow).
    intros k r'. cbn. destruct (decide (k = (u, d))) as [->|Hne].
    + rewrite lookup_insert_eq. intros [= <-].
      destruct (attendance db !! (u, d)) as [old|] eqn:Hold.
      * destruct Hrow as (_ & -> & -> & _). by apply Hkey.
      * by subst r.
    + rewrite lookup_insert_ne by done. apply Hkey.
  - destruct (attendance_update_check_out_lookup _ _ _ _ _ _ Hup)
      as (_ & _ & Hlook & _).
    intros k r'. rewrite Hlook.
    destruct (attendance db !! k) as [r|] eqn:Hrow; [|done]. cbn.
    intros Hr'. destruct (check_out_row_key _ _ _ _ _ _ Hr')
      as (_ & -> & -> & _). by apply Hkey.
Qed.

(** X2. The handlers keep one row per user and day: each stored row
    stays filed under its own [(user_id, date)], so two rows of one user
    for one day are one row. *)
Theorem attendance_one_row_per_day (b : browser) (srv : server)
    (profile : option ProfileRow.row)
    (today : option AttendanceRow.row) (db : database) :
  attendance_keyed db →
  ∀ out, out = Attendance_handleCheckIn b srv profile today db
         ∨ out = Dashboard_handleCheckIn b srv profile db
         ∨ out = Attendance_handleCheckOut b srv profile today db
         ∨ out = Dashboard_handleCheckOut b srv profile today db →
  attendance_keyed out.1
  ∧ ∀ k1 k2 r1 r2,
      attendance out.1 !! k1 = Some r1 →
      attendance out.1 !! k2 = Some r2 →
      AttendanceRow.user_id r1 = AttendanceRow.user_id r2 →
      AttendanceRow.date r1 = AttendanceRow.date r2 →
      k1 = k2 ∧ r1 = r2.
Proof.
  intros Hkey out Hout.
  pose proof (attendance_keyed_preserved b srv profile today db Hkey out Hout)
    as Hkeyed.
  split; [done|]. intros k1 k2 r1 r2 H1 H2 Hu Hd.
  assert (k1 = k2) as ->.
  { rewrite (Hkeyed _ _ H1), (Hkeyed _ _ H2). by rewrite Hu, Hd. }
  split; [done|]. congruence.
Qed.

Lemma attendance_one_row_per_day_witness :
  attendance_keyed
    (Dashboard_handleCheckIn (Scenario.browser_at Scenario.at_09_07)
       (Scenario.server_at Scenario.at_09_07 8%N) (Some Scenario.alice)
       Scenario.db_checked_in).1.
Proof.
  apply (attendance_one_row_per_day (Scenario.browser_at Scenario.at_09_07)
           (Scenario.server_at Scenario.at_09_07 8%N) (Some Scenario.alice)
           None Scenario.db_checked_in).
  - intros k r. unfold Scenario.db_checked_in. cbn.
    intros Hrow. apply lookup_singleton_Some in Hrow as [<- <-].
    reflexivity.
  - right. left. reflexivity.
Defined.

(** ** What check-in and check-out leave alone *)

(** X3. A check-out, from either page and whatever it is called with,
    adds and removes no row and touches neither [profiles] nor
    [leave_requests]; a row it finds keeps its id, user, day, check-in,
    status and creation time, and a row of another user, or with
    another id than the page's row for today, stays exactly as it is. *)
Theorem check_out_frame (b : browser) (srv : server)
    (profile : option ProfileRow.row)
    (today : option AttendanceRow.row) (db : database) :
  ∀ out, out = Attendance_handleCheckOut b srv profile today db
         ∨ out = Dashboard_handleCheckOut b srv profile today db →
  profiles out.1 = profiles db
  ∧ leave_requests out.1 = leave_requests db
  ∧ (∀ k, attendance out.1 !! k = None ↔ attendance db !! k = None)
  ∧ (∀ k r, attendance db !! k = Some r →
       ∃ r', attendance out.1 !! k = Some r'
             ∧ AttendanceRow.id r' = AttendanceRow.id r
             ∧ AttendanceRow.user_id r' = AttendanceRow.user_id r
             ∧ AttendanceRow.date r' = AttendanceRow.date r
             ∧ AttendanceRow.check_in r' = AttendanceRow.check_in r
             ∧ AttendanceRow.status r' = AttendanceRow.status r
             ∧ AttendanceRow.created_at r' = AttendanceRow.created_at r
             ∧ (Some (AttendanceRow.user_id r)
                  ≠ ProfileRow.user_id <$> profile
                ∨ Some (AttendanceRow.id r) ≠ AttendanceRow.id <$> today →
                r' = r)).
Proof.
  intros out Hout.
  destruct (check_out_handlers_cases b srv profile today db out Hout)
    as [-> | (p & t & -> & -> & Hup)].
  - repeat split; try done. intros k r Hrow. exists r. by repeat split.
  - destruct (attendance_update_check_out_lookup _ _ _ _ _ _ Hup)
      as (Hp & Hl & Hlook & Hsome).
    split; [done|]. split; [done|]. split.
    + intros k. rewrite Hlook.
      destruct (attendance db !! k) as [r|] eqn:Hrow; [|done]. cbn.
      destruct (Hsome k r Hrow) as [r' Hr']. by rewrite Hr'.
    + intros k r Hrow. rewrite Hlook, Hrow. cbn.
      destruct (Hsome k r Hrow) as [r' Hr']. exists r'.
      split; [done|].
      destruct (check_out_row_key _ _ _ _ _ _ Hr')
        as (Hid & Hu & Hd & Hci & Hst & Hcr).
      repeat (split; [done|]).
      intros Hother. unfold check_out_row in Hr'.
      rewrite decide_False in Hr'; [congruence|].
      intros [Hi Hu']. cbn in Hother. destruct Hother; congruence.
Qed.

(** Alice's page handed Helen's row: the update passes no row of
    Alice's, and Helen's row stays. *)
Lemma check_out_frame_witness :
  attendance
    (Dashboard_handleCheckOut (Scenario.browser_at Scenario.at_18_30)
       (Scenario.server_at Scenario.at_18_30 0%N) (Some Scenario.alice)
       (Some Cases.row_helen) Cases.db_january).1
    !! (2%N, Scenario.day_2025_01_10)
  = Some Cases.row_helen.
Proof.
  destruct (check_out_frame (Scenario.browser_at Scenario.at_18_30)
              (Scenario.server_at Scenario.at_18_30 0%N)
              (Some Scenario.alice) (Some Cases.row_helen) Cases.db_january
              (Dashboard_handleCheckOut
                 (Scenario.browser_at Scenario.at_18_30)
                 (Scenario.server_at Scenario.at_18_30 0%N)
                 (Some Scenario.alice) (Some Cases.row_helen)
                 Cases.db_january))
    as (_ & _ & _ & Hrows).
  - right. reflexivity.
  - destruct (Hrows (2%N, Scenario.day_2025_01_10) Cases.row_helen)
      as (r' & Hr' & _ & _ & _ & _ & _ & _ & Hsame).
    + reflexivity.
    + transitivity (Some r'); [exact Hr'|].
      f_equal. apply Hsame. left. discriminate.
Defined.

(** X4. A check-in, from either page and whatever it is called with,
    removes no row and touches neither [profiles] nor [leave_requests];
    every row but the one of the signed-in user for today stays exactly
    as it is, and that row, when it was there, keeps its id, user, day,
    check-out and creation time. *)
Theorem check_in_frame (b : browser) (srv : server)
    (profile : option ProfileRow.row)
    (today : option AttendanceRow.row) (db : database) :
  ∀ out, out = Attendance_handleCheckIn b srv profile today db
         ∨ out = Dashboard_handleCheckIn b srv profile db →
  profiles out.1 = profiles db
  ∧ leave_requests out.1 = leave_requests db
  ∧ (∀ k : uuid * Z,
       Some k ≠ (λ p, (ProfileRow.user_id p, format_date b)) <$> profile →
       attendance out.1 !! k = attendance db !! k)
  ∧ (∀ k r, attendance db !! k = Some r →
       ∃ r', attendance out.1 !! k = Some r'
             ∧ AttendanceRow.id r' = AttendanceRow.id r
             ∧ AttendanceRow.user_id r' = AttendanceRow.user_id r
             ∧ AttendanceRow.date r' = AttendanceRow.date r
             ∧ AttendanceRow.check_out r' = AttendanceRow.check_out r
             ∧ AttendanceRow.created_at r' = AttendanceRow.created_at r).
Proof.
  intros out Hout.
  destruct (check_in_handlers_cases b srv profile today db out Hout)
    as [-> | (p & -> & Hup)].
  - repeat split; try done. intros k r Hrow. exists r. by repeat split.
  - destruct (attendance_upsert_inv _ _ _ _ _ _ _ _ Hup)
      as (r1 & -> & _ & _ & _ & Hrow1).
    cbn. split; [done|]. split; [done|]. split.
    + intros k Hk. rewrite lookup_insert_ne; [done|].
      intros <-. by apply Hk.
    + intros k r Hrow.
      destruct (decide (k = (ProfileRow.user_id p, format_date b)))
        as [->|Hne].
      * rewrite lookup_insert_eq.
        match type of Hrow1 with
        | match ?x with _ => _ end =>
            replace x with (Some r) in Hrow1 by (symmetry; exact Hrow)
        end.
        destruct Hrow1 as (Hid & Hu & Hd & Hco & Hcr & _).
        exists r1. by repeat split.
      * rewrite lookup_insert_ne by done. exists r. by repeat split.
Qed.

Lemma check_in_frame_witness :
  attendance
    (Dashboard_handleCheckIn (Scenario.browser_at Scenario.at_09_07)
       (Scenario.server_at Scenario.at_09_07 8%N) (Some Scenario.alice)
       Cases.db_january).1
    !! (2%N, Scenario.day_2025_01_10)
  = Some Cases.row_helen.
Proof.
  destruct (check_in_frame (Scenario.browser_at Scenario.at_09_07)
              (Scenario.server_at Scenario.at_09_07 8%N)
              (Some Scenario.alice) None Cases.db_january
              (Dashboard_handleCheckIn
                 (Scenario.browser_at Scenario.at_09_07)
                 (Scenario.server_at Scenario.at_09_07 8%N)
                 (Some Scenario.alice) Cases.db_january))
    as (_ & _ & Hother & _).
  - right. reflexivity.
  - transitivity (attendance Cases.db_january
                    !! (2%N, Scenario.day_2025_01_10));
      [apply Hother; discriminate | reflexivity].
Defined.

(** ** A check-out that does not fit the column *)



(** ** Leave requests: what the handlers do and leave alone *)

(** X8. Both leave handlers keep [total_days] in step with the dates on
    every stored request: if each request carried
    [(end_date - start_date) + 1] before a submission, an approval or a
    rejection, each does afterwards. *)
Theorem leave_days_invariant (srv : server)
    (profile : option ProfileRow.row) (f : NewLeaveRequest) (id0 : uuid)
    (d : decision) (rem : option string) (db : database) :
  map_Forall (λ _, leave_days_consistent) (leave_requests db) →
  map_Forall (λ _, leave_days_consistent)
    (leave_requests (handleSubmitLeaveRequest srv profile f db).1)
  ∧ map_Forall (λ _, leave_days_consistent)
      (leave_requests (handleApproveReject srv profile id0 d rem db).1).
Proof.
  intros Hinv. split.
  - unfold handleSubmitLeaveRequest. destruct profile as [p|]; [|done].
    destruct (_ || _); [done|].
    destruct (as_client _ _) as [db'|] eqn:Hins; [|done].
    apply as_client_Some in Hins.
    destruct (parse_leave_type _) as [lt|]; [|done].
    destruct (startDate f) as [sd|]; [|done].
    destruct (endDate f) as [ed|]; [|done]. cbn in Hins.
    cbn. by eapply leave_requests_insert_consistent.
  - unfold handleApproveReject. destruct profile as [p|]; [|done].
    destruct (as_client _ _) as [db'|] eqn:Hup; [|done].
    apply as_client_Some in Hup. injection Hup as <-.
    cbn. by apply leave_requests_update_consistent.
Qed.

Lemma leave_days_invariant_witness :
  map_Forall (λ _, leave_days_consistent)
    (leave_requests
       (handleSubmitLeaveRequest (Scenario.server_at Scenario.at_09_05 51%N)
          (Some Scenario.alice) Scenario.form_backwards
          Scenario.db_pending).1)
  ∧ map_Forall (λ _, leave_days_consistent)
      (leave_requests
         (handleApproveReject (Scenario.server_at Scenario.at_09_05 51%N)
            (Some Scenario.alice) 50%N reject None Scenario.db_pending).1).
Proof.
  apply (leave_days_invariant (Scenario.server_at Scenario.at_09_05 51%N)
           (Some Scenario.alice) Scenario.form_backwards 50%N reject None
           Scenario.db_pending).
  apply map_Forall_singleton. reflexivity.
Defined.

(** X9. A submission, whatever the form holds and whoever submits it,
    touches neither [profiles] nor [attendance] and changes no request
    that is already stored; when it changes the store at all, it adds
    the one request filed under the new id. *)
Theorem handleSubmitLeaveRequest_frame (srv : server)
    (profile : option ProfileRow.row) (f : NewLeaveRequest)
    (db : database) :
  let out := handleSubmitLeaveRequest srv profile f db in
  profiles out.1 = profiles db
  ∧ attendance out.1 = attendance db
  ∧ (∀ id1 r, leave_requests db !! id1 = Some r →
              leave_requests out.1 !! id1 = Some r)
  ∧ (∀ id1, id1 ≠ gen_random_uuid srv →
            leave_requests out.1 !! id1 = leave_requests db !! id1)
  ∧ (out.1 = db
     ∨ (leave_requests db !! gen_random_uuid srv = None
        ∧ is_Some (leave_requests out.1 !! gen_random_uuid srv)
        ∧ out.2 = Some (Toast "Leave Request Submitted" false))).
Proof.
  cbn zeta. unfold handleSubmitLeaveRequest.
  destruct profile as [p|]; [|by repeat split; auto].
  destruct (_ || _); [by repeat split; auto|].
  destruct (as_client _ _) as [db'|] eqn:Hins; [|by repeat split; auto].
  apply as_client_Some in Hins.
  destruct (parse_leave_type _) as [lt|]; [|done].
  destruct (startDate f) as [sd|]; [|done].
  destruct (endDate f) as [ed|]; [|done]. cbn in Hins.
  unfold leave_requests_insert in Hins.
  destruct (_ || _); [|done].
  destruct (leave_requests db !! gen_random_uuid srv) eqn:Hfresh; [done|].
  injection Hins as <-.
  cbn. split; [done|]. split; [done|]. split; [|split].
  - intros id1 r Hrow. rewrite lookup_insert_ne; [done|]. congruence.
  - intros id1 Hne. by rewrite lookup_insert_ne.
  - right. rewrite lookup_insert_eq. eauto.
Qed.

(** ** Statistics *)

(** X11. In the leave statistics the pending, approved and rejected
    counts never exceed the total together, and they add up to it
    exactly when no request of the list has a null status; the HR block
    is computed for everyone but an employee. *)
Theorem leave_stats_counts (leaveRequests : list LeaveRow.row)
    (profile : option ProfileRow.row) :
  (LeaveStats.pending (userStats leaveRequests)
   + LeaveStats.approved (userStats leaveRequests)
   + LeaveStats.rejected (userStats leaveRequests)
   + length (List.filter (λ r, bool_decide (LeaveRow.status r = None))
               leaveRequests)
   = LeaveStats.total (userStats leaveRequests))%nat
  ∧ LeaveStats.total (userStats leaveRequests) = length leaveRequests
  ∧ (hrStats profile leaveRequests = None
     ↔ ProfileRow.role <$> profile = Some employee)
  ∧ (∀ s, hrStats profile leaveRequests = Some s →
          s = userStats leaveRequests).
Proof.
  split; [|split; [reflexivity|split]].
  - cbn [userStats LeaveStats.pending LeaveStats.approved
           LeaveStats.rejected LeaveStats.total].
    induction leaveRequests as [|r l IH]; [reflexivity|].
    rewrite !filter_cons_length. cbn [length].
    assert (Nat.b2n (leave_status_is pending r)
            + Nat.b2n (leave_status_is approved r)
            + Nat.b2n (leave_status_is rejected r)
            + Nat.b2n (bool_decide (LeaveRow.status r = None)) = 1)%nat.
    { unfold leave_status_is. by destruct (LeaveRow.status r) as [[]|]. }
    lia.
  - unfold hrStats. case_bool_decide; cbn; naive_solver.
  - unfold hrStats. destruct (negb _); naive_solver.
Qed.

(** ** What the policies let through *)



(** X24. The policies of [profiles] that test the role select from
    [profiles] themselves, and every other table has a policy that
    selects from [profiles].  So every select, upsert and update on any
    of the four tables, and every insert into [profiles],
    [leave_requests] and [company_policies], is refused with an
    infinite recursion in the policies of [profiles], whatever the rows
    and the user; the verdict is the same for every larger bound on the
    depth. *)
Theorem client_statements_refused (s : statement) :
  (s ≠ stmt_insert rel_attendance →
   rewrite_statement s = infinite_recursion rel_profiles
   ∧ ∀ A (run : option A), as_client s run = None)
  ∧ ∀ n, add_policies (5 + n) [] (commands_of s) (relation_of s)
         = rewrite_statement s.
Proof.
  split; [|apply rewrite_statement_fuel].
  intros Hs. split; [|intros A run; by apply as_client_refused].
  rewrite rewrite_statement_cases. by rewrite decide_False.
Qed.

Lemma client_statements_refused_witness :
  rewrite_statement (stmt_select rel_attendance)
  = infinite_recursion rel_profiles.
Proof.
  apply (proj1 (client_statements_refused (stmt_select rel_attendance))).
  discriminate.
Defined.

(** The selects of the pages among them. *)
Example selects_refused :
  as_client (stmt_select rel_profiles) (Some Scenario.staff) = None
  ∧ rewrite_statement (stmt_select rel_leave_requests)
    = infinite_recursion rel_profiles
  ∧ rewrite_statement (stmt_select rel_company_policies)
    = infinite_recursion rel_profiles.
Proof. repeat split. Qed.

(** ** What the Dashboard fetches *)

(** X25. Whatever the store holds, the Dashboard's query for today's row
    leaves [todayAttendance] null, because the select is refused: an
    employee is offered Check In, also on a day that already has a
    check-in or is complete, never Check Out, and a call of the
    check-out handler with that state returns at once. *)
Theorem Dashboard_never_sees_today (b : browser) (srv : server)
    (p : ProfileRow.row) (db : database) :
  Dashboard_fetch_today b p db = None
  ∧ (ProfileRow.role p = employee →
     Dashboard_quick_action (Some p) (Dashboard_fetch_today b p db)
     = Some CheckInButton)
  ∧ Dashboard_handleCheckOut b srv (Some p) (Dashboard_fetch_today b p db) db
    = (db, None).
Proof.
  assert (Hnone : Dashboard_fetch_today b p db = None).
  { unfold Dashboard_fetch_today.
    by rewrite (as_client_refused (stmt_select rel_attendance)). }
  rewrite Hnone. split; [done|]. split; [|done].
  intros Hrole. unfold Dashboard_quick_action. cbn. by rewrite Hrole.
Qed.

Lemma Dashboard_never_sees_today_witness :
  attendance Scenario.db_checked_out !! (1%N, Scenario.day_2025_01_10)
  = Some Scenario.row_checked_out
  ∧ Dashboard_quick_action (Some Scenario.alice)
      (Dashboard_fetch_today (Scenario.browser_at Scenario.at_18_30)
         Scenario.alice Scenario.db_checked_out)
    = Some CheckInButton.
Proof.
  split; [reflexivity|].
  apply (proj1 (proj2 (Dashboard_never_sees_today
                         (Scenario.browser_at Scenario.at_18_30)
                         (Scenario.server_at Scenario.at_18_30 0%N)
                         Scenario.alice Scenario.db_checked_out))).
  reflexivity.
Defined.

(** The query itself, had it run, would have found the row. *)
Example select_today_finds_row :
  single (select_today 1%N Scenario.day_2025_01_10 Scenario.db_checked_out)
  = Some Scenario.row_checked_out.
Proof. vm_compute. reflexivity. Qed.

(** X26. The three counters of the HR and admin dashboard are 0 whatever
    the store holds and whoever looks: each count-only select is
    refused, and a missing count is shown as 0. *)
Theorem fetchHRAdminStats_zero (today : date) (uid : uuid) (db : database) :
  fetchHRAdminStats today uid db = mkhrstats 0 0 0.
Proof.
  unfold fetchHRAdminStats.
  rewrite (as_client_refused (stmt_select rel_profiles)) by done.
  rewrite (as_client_refused (stmt_select rel_attendance)) by done.
  by rewrite (as_client_refused (stmt_select rel_leave_requests)).
Qed.

(** Helen's dashboard over the January store: three profiles, two rows
    of the day and a pending request, and 0 in each counter. *)
Example fetchHRAdminStats_january :
  fetchHRAdminStats Scenario.day_2025_01_10 2%N Cases.db_january
  = mkhrstats 0 0 0
  ∧ size (profiles Cases.db_january) = 3%nat
  ∧ size (leave_requests Cases.db_january) = 1%nat.
Proof. repeat split; vm_compute; reflexivity. Qed.

(** ** The profile of a new user *)

Lemma parse_user_role_Some (s : string) (ro : user_role) :
  parse_user_role s = Some ro
  ↔ (s = "admin" ∧ ro = admin) ∨ (s = "hr" ∧ ro = hr)
    ∨ (s = "employee" ∧ ro = employee).
Proof.
  unfold parse_user_role.
  destruct (String.eqb_spec s "admin") as [->|Ha];
    [split; [intros [= <-]; auto | intuition congruence]|].
  destruct (String.eqb_spec s "hr") as [->|Hh];
    [split; [intros [= <-]; auto | intuition congruence]|].
  destruct (String.eqb_spec s "employee") as [->|He];
    split; try (intros [= <-]; auto); intuition congruence.
Qed.

(** X18. When the signup trigger succeeds, the new user has exactly one
    new profile, with the e-mail of the account, the name of the
    metadata or "New User", and the role the metadata names, employee
    when they name none.  No profile that was there changes, and no
    other table does. *)
Theorem handle_new_user_profile (srv : server) (NEW : auth_user)
    (db db' : database) :
  handle_new_user srv NEW db = Some db' →
  profiles db !! auth_id NEW = None
  ∧ attendance db' = attendance db
  ∧ leave_requests db' = leave_requests db
  ∧ (∀ u, u ≠ auth_id NEW → profiles db' !! u = profiles db !! u)
  ∧ ∃ prof, profiles db' !! auth_id NEW = Some prof
      ∧ ProfileRow.user_id prof = auth_id NEW
      ∧ ProfileRow.id prof = gen_random_uuid srv
      ∧ Some (ProfileRow.email prof) = auth_email NEW
      ∧ ProfileRow.name prof
        = default "New User" (raw_user_meta_data NEW !! "name")
      ∧ (raw_user_meta_data NEW !! "role" = None →
         ProfileRow.role prof = employee)
      ∧ (∀ s, raw_user_meta_data NEW !! "role" = Some s →
              parse_user_role s = Some (ProfileRow.role prof))
      ∧ (∀ u q, profiles db !! u = Some q →
                ProfileRow.email q ≠ ProfileRow.email prof).
Proof.
  unfold handle_new_user.
  destruct (match raw_user_meta_data NEW !! "role" with
            | Some s => parse_user_role s
            | None => Some employee
            end) as [ro|] eqn:Hro; [|done]. cbn.
  destruct (auth_email NEW) as [mail|] eqn:Hmail; [|done]. cbn.
  case_decide as Hclash; [done|]. intros [= <-]. cbn.
  assert (Hnone : profiles db !! auth_id NEW = None).
  { destruct (profiles db !! auth_id NEW) eqn:Hp; [|done].
    destruct Hclash. left. eauto. }
  split; [done|]. split; [done|]. split; [done|]. split.
  { intros u Hne. by rewrite lookup_insert_ne. }
  eexists. split; [apply lookup_insert_eq|]. cbn.
  split; [done|]. split; [done|]. split; [done|]. split; [done|].
  split; [|split].
  - intros Hr. rewrite Hr in Hro. congruence.
  - intros s Hr. by rewrite Hr in Hro.
  - intros u q Hq Heq. destruct Hclash. right. exists u, q. eauto.
Qed.

Lemma handle_new_user_profile_witness :
  ∃ prof,
    profiles
      (mkdb (<[9%N := ProfileRow.mk 60%N 9%N "Mallory" "mallory@example.com"
                        admin None]> Scenario.staff) ∅ ∅)
      !! 9%N = Some prof
    ∧ ProfileRow.role prof = admin.
Proof.
  destruct (handle_new_user_profile
              (Scenario.server_at Scenario.at_09_05 60%N) Cases.new_admin
              Scenario.db_empty
              (mkdb (<[9%N := ProfileRow.mk 60%N 9%N "Mallory"
                                "mallory@example.com" admin None]>
                       Scenario.staff) ∅ ∅))
    as (_ & _ & _ & _ & prof & Hprof & _ & _ & _ & _ & _ & Hrole & _).
  - vm_compute. reflexivity.
  - exists prof. split; [exact Hprof|].
    specialize (Hrole "admin" eq_refl). by injection Hrole.
Defined.

(** X19. The signup trigger fails, and with it the signup, exactly when
    the metadata name a role that is none of admin, hr and employee,
    the account has no e-mail, the user already has a profile, or the
    e-mail or the new profile id is already in [profiles]. *)
Theorem handle_new_user_fails (srv : server) (NEW : auth_user)
    (db : database) :
  handle_new_user srv NEW db = None
  ↔ (∃ s, raw_user_meta_data NEW !! "role" = Some s
          ∧ s ≠ "admin" ∧ s ≠ "hr" ∧ s ≠ "employee")
    ∨ auth_email NEW = None
    ∨ is_Some (profiles db !! auth_id NEW)
    ∨ (∃ u q, profiles db !! u = Some q
              ∧ (Some (ProfileRow.email q) = auth_email NEW
                 ∨ ProfileRow.id q = gen_random_uuid srv)).
Proof.
  unfold handle_new_user.
  assert (Hclash_iff :
    ∀ mail,
      (is_Some (profiles db !! auth_id NEW)
       ∨ map_Exists (λ _ p, ProfileRow.email p = mail
                            ∨ ProfileRow.id p = gen_random_uuid srv)
           (profiles db))
      ↔ (is_Some (profiles db !! auth_id NEW)
         ∨ ∃ u q, profiles db !! u = Some q
                  ∧ (Some (ProfileRow.email q) = Some mail
                     ∨ ProfileRow.id q = gen_random_uuid srv))).
  { intros mail. split.
    - intros [?|(u & q & Hq & [<-|Hid])]; [by left|right..];
        exists u, q; auto.
    - intros [?|(u & q & Hq & [[= <-]|Hid])]; [by left|right..];
        exists u, q; auto. }
  destruct (raw_user_meta_data NEW !! "role") as [s|] eqn:Hs.
  - destruct (parse_user_role s) as [ro|] eqn:Hro; cbn.
    + apply parse_user_role_Some in Hro.
      destruct (auth_email NEW) as [mail|]; cbn; [|split; auto].
      case_decide as Hclash; split; try done.
      * intros _. apply Hclash_iff in Hclash. tauto.
      * intros [(s' & Hs' & Ha & Hh & He)|[?|Hc]]; [|done|].
        -- injection Hs' as <-. intuition congruence.
        -- destruct Hclash. apply Hclash_iff. tauto.
    + split; [|done]. intros _. left. exists s. split; [done|].
      repeat split; intros ->; by vm_compute in Hro.
  - cbn. destruct (auth_email NEW) as [mail|]; cbn; [|split; auto].
    case_decide as Hclash; split; try done.
    + intros _. apply Hclash_iff in Hclash. tauto.
    + intros [(s' & Hs' & _)|[?|Hc]]; [done|done|].
      destruct Hclash. apply Hclash_iff. tauto.
Qed.

Example handle_new_user_cases :
  is_Some (handle_new_user (Scenario.server_at Scenario.at_09_05 60%N)
             Cases.new_plain Scenario.db_empty)
  ∧ handle_new_user (Scenario.server_at Scenario.at_09_05 60%N)
      Cases.new_bad_role Scenario.db_empty = None
  ∧ handle_new_user (Scenario.server_at Scenario.at_09_05 101%N)
      Cases.new_plain Scenario.db_empty = None.
Proof. split; [|split]; vm_compute; eauto. Qed.

(** ** Buttons and navigation *)

(** X20. For an employee the two pages agree on what can be done today:
    the Dashboard offers the check-in button exactly when the
    Attendance page enables its own, the check-out button exactly when
    the Attendance page enables that one, and shows the day as
    completed exactly when both are disabled.  For any other profile,
    and without one, the Dashboard offers no quick action, while the
    buttons of the Attendance page do not look at the role; that page
    never enables both. *)
Theorem pages_agree_on_buttons (profile : option ProfileRow.row)
    (todayAttendance : option AttendanceRow.row) :
  (ProfileRow.role <$> profile = Some employee →
   (Dashboard_quick_action profile todayAttendance = Some CheckInButton
    ↔ Attendance_checkIn_disabled todayAttendance = false)
   ∧ (Dashboard_quick_action profile todayAttendance = Some CheckOutButton
      ↔ Attendance_checkOut_disabled todayAttendance = false)
   ∧ (Dashboard_quick_action profile todayAttendance = Some Completed
      ↔ Attendance_checkIn_disabled todayAttendance = true
        ∧ Attendance_checkOut_disabled todayAttendance = true))
  ∧ (ProfileRow.role <$> profile ≠ Some employee →
     Dashboard_quick_action profile todayAttendance = None)
  ∧ (Attendance_checkIn_disabled todayAttendance = true
     ∨ Attendance_checkOut_disabled todayAttendance = true).
Proof.
  unfold Dashboard_quick_action, Attendance_checkIn_disabled,
    Attendance_checkOut_disabled.
  split; [|split].
  - intros Hrole. rewrite bool_decide_eq_true_2 by done.
    destruct todayAttendance as [t|]; cbn; [|intuition congruence].
    destruct (AttendanceRow.check_in t), (AttendanceRow.check_out t); cbn;
      intuition congruence.
  - intros Hrole. by rewrite bool_decide_eq_false_2.
  - destruct todayAttendance as [t|]; cbn; [|auto].
    destruct (AttendanceRow.check_in t), (AttendanceRow.check_out t); cbn;
      auto.
Qed.

Lemma pages_agree_on_buttons_witness :
  (Dashboard_quick_action (Some Scenario.alice)
     (Some Scenario.row_checked_in) = Some CheckOutButton
   ↔ Attendance_checkOut_disabled (Some Scenario.row_checked_in) = false)
  ∧ Dashboard_quick_action (Some Scenario.helen)
      (Some Scenario.row_checked_in) = None.
Proof.
  split.
  - apply (proj1 (pages_agree_on_buttons (Some Scenario.alice)
                    (Some Scenario.row_checked_in))).
    reflexivity.
  - apply (proj1 (proj2 (pages_agree_on_buttons (Some Scenario.helen)
                           (Some Scenario.row_checked_in)))).
    discriminate.
Defined.

(** X21. Navigation widens with the role: what an employee is shown, HR
    is shown, and what HR is shown, an admin is shown; Reports and
    Employees are shown to HR and admin only, the Admin Panel to admin
    only, and without a profile nothing is shown. *)
Theorem navigation_by_role (p : ProfileRow.row) :
  filteredNavigation None = []
  ∧ (∀ q item, ProfileRow.role p = employee →
               item ∈ filteredNavigation (Some p) →
               item ∈ filteredNavigation (Some q))
  ∧ (∀ q item, ProfileRow.role p = hr → ProfileRow.role q ≠ employee →
               item ∈ filteredNavigation (Some p) →
               item ∈ filteredNavigation (Some q))
  ∧ (∀ item, item ∈ filteredNavigation (Some p) →
             href item = "/reports" ∨ href item = "/employees" →
             ProfileRow.role p ≠ employee)
  ∧ (∀ item, item ∈ filteredNavigation (Some p) →
             href item = "/admin" → ProfileRow.role p = admin).
Proof.
  split; [reflexivity|].
  assert (Hin : ∀ (q : ProfileRow.row) item,
            item ∈ filteredNavigation (Some q)
            ↔ item ∈ navigationItems
              ∧ bool_decide (ProfileRow.role q ∈ roles item) = true).
  { intros q item. unfold filteredNavigation.
    by rewrite list_elem_of_In, filter_In, <- list_elem_of_In. }
  assert (Hitems : ∀ item, item ∈ navigationItems →
            item = mknav "Dashboard" "/dashboard" [employee; hr; admin]
            ∨ item = mknav "Attendance" "/attendance" [employee; hr; admin]
            ∨ item = mknav "Leave Requests" "/leaves" [employee; hr; admin]
            ∨ item = mknav "Reports" "/reports" [hr; admin]
            ∨ item = mknav "Employees" "/employees" [hr; admin]
            ∨ item = mknav "Admin Panel" "/admin" [admin]).
  { intros item. unfold navigationItems. rewrite !elem_of_cons.
    rewrite elem_of_nil. tauto. }
  repeat split.
  - intros q item Hp. rewrite !Hin, Hp. intros [Hitem Hrole].
    split; [done|].
    destruct (Hitems item Hitem) as [-> | [-> | [-> | [-> | [-> | ->]]]]];
      cbn [roles] in *; try discriminate Hrole;
      by destruct (ProfileRow.role q).
  - intros q item Hp Hq. rewrite !Hin, Hp. intros [Hitem Hrole].
    split; [done|].
    destruct (Hitems item Hitem) as [-> | [-> | [-> | [-> | [-> | ->]]]]];
      cbn [roles] in *; try discriminate Hrole;
      by destruct (ProfileRow.role q).
  - intros item. rewrite Hin. intros [Hitem Hrole] Hhref Hemp.
    rewrite Hemp in Hrole.
    destruct (Hitems item Hitem) as [-> | [-> | [-> | [-> | [-> | ->]]]]];
      cbn [roles href] in *; try discriminate Hrole;
      destruct Hhref; discriminate.
  - intros item. rewrite Hin. intros [Hitem Hrole] Hhref.
    destruct (Hitems item Hitem) as [-> | [-> | [-> | [-> | [-> | ->]]]]];
      cbn [roles href] in *; try discriminate Hhref.
    by destruct (ProfileRow.role p).
Qed.

Lemma navigation_by_role_witness :
  mknav "Attendance" "/attendance" [employee; hr; admin]
  ∈ filteredNavigation (Some Scenario.helen).
Proof.
  apply (proj1 (proj2 (navigation_by_role Scenario.alice)) Scenario.helen).
  - reflexivity.
  - apply list_elem_of_In. vm_compute. tauto.
Defined.

Lemma prefix_of_same (a c s : string) :
  String.prefix a s = true → String.prefix c s = true →
  String.prefix a c = true ∨ String.prefix c a = true.
Proof.
  revert c s. induction a as [|x a IH]; intros c s;
    [left; by destruct c|].
  destruct c as [|y c]; [right; reflexivity|].
  destruct s as [|z s]; [done|]. cbn.
  destruct (Ascii.ascii_dec x z) as [->|]; [|done].
  destruct (Ascii.ascii_dec y z) as [->|]; [|done].
  destruct (Ascii.ascii_dec z z); [|done]. apply IH.
Qed.

Lemma prefix_app_l (a c s : string) :
  String.prefix (a +:+ c) s = true → String.prefix a s = true.
Proof.
  revert s. induction a as [|x a IH]; intros s; [by destruct s|].
  destruct s as [|z s]; [done|]. simpl.
  destruct (Ascii.ascii_dec x z); [apply IH|done].
Qed.

Lemma prefix_refl (a : string) : String.prefix a a = true.
Proof.
  induction a as [|x a IH]; [done|]. cbn.
  by destruct (Ascii.ascii_dec x x).
Qed.

Lemma isActiveRoute_prefix (pathname h : string) :
  isActiveRoute pathname h = true → String.prefix h pathname = true.
Proof.
  unfold isActiveRoute. intros Hactive.
  apply orb_prop in Hactive as [Heq|Hpre].
  - apply String.eqb_eq in Heq as ->. apply prefix_refl.
  - by eapply prefix_app_l.
Qed.

(** X22. Whatever the path, the sidebar highlights at most one entry:
    two navigation items that are both active for a path are the same
    item. *)
Theorem isActiveRoute_at_most_one (pathname : string) (i1 i2 : NavItem) :
  i1 ∈ navigationItems → i2 ∈ navigationItems →
  isActiveRoute pathname (href i1) = true →
  isActiveRoute pathname (href i2) = true →
  i1 = i2.
Proof.
  intros H1 H2 Ha1 Ha2.
  apply isActiveRoute_prefix in Ha1, Ha2.
  pose proof (prefix_of_same _ _ _ Ha1 Ha2) as Hpre.
  unfold navigationItems in H1, H2.
  rewrite !elem_of_cons, elem_of_nil in H1, H2.
  destruct H1 as [-> | [-> | [-> | [-> | [-> | [-> | []]]]]]];
    destruct H2 as [-> | [-> | [-> | [-> | [-> | [-> | []]]]]]];
    try reflexivity; exfalso; vm_compute in Hpre;
    destruct Hpre; discriminate.
Qed.

Lemma isActiveRoute_at_most_one_witness :
  mknav "Admin Panel" "/admin" [admin]
  = mknav "Admin Panel" "/admin" [admin].
Proof.
  apply (isActiveRoute_at_most_one "/admin/users"
           (mknav "Admin Panel" "/admin" [admin])
           (mknav "Admin Panel" "/admin" [admin])).
  - apply list_elem_of_In. vm_compute. tauto.
  - apply list_elem_of_In. vm_compute. tauto.
  - reflexivity.
  - reflexivity.
Defined.

(** A path under a prefix of an entry is not that entry's: "/administer"
    does not highlight the Admin Panel. *)
Example isActiveRoute_cases :
  isActiveRoute "/admin" "/admin" = true
  ∧ isActiveRoute "/admin/users" "/admin" = true
  ∧ isActiveRoute "/administer" "/admin" = false
  ∧ isActiveRoute "/attendance" "/admin" = false.
Proof. repeat split. Qed.

